(** * JBOD network client (net.c): wire framing and full-buffer transfer

    A shallow embedding of [src/net.c].  C integers are [Z] with their
    wrap-around written out, byte buffers are [list Z], the socket is an
    explicit [world] that every system call transforms, and the two
    [while] loops take a fuel argument: a run that exhausts it has no
    result ([None]). *)

From Stdlib Require Import String.
From Stdlib Require Import ZArith List Bool Lia.
Import ListNotations.
Local Open Scope Z_scope.

(** ** Machine integers *)

(** [int]: 32-bit two's complement. *)
Definition INT_MAX : Z := 2147483647.

Definition wrap_int (z : Z) : Z := (z + 2 ^ 31) mod 2 ^ 32 - 2 ^ 31.

(** [uint32_t]: arithmetic modulo 2^32. *)
Definition wrap_u32 (z : Z) : Z := z mod 2 ^ 32.

(** Byte order of the machine that runs the client. *)
Inductive endianness : Type := LittleEndian | BigEndian.

(** The four bytes of a [uint32_t] object as they lie in memory. *)
Definition bytes_le (x : Z) : list Z :=
  [ Z.land x 255;
    Z.land (Z.shiftr x 8) 255;
    Z.land (Z.shiftr x 16) 255;
    Z.land (Z.shiftr x 24) 255 ].

Definition mem_of_u32 (host : endianness) (x : Z) : list Z :=
  match host with
  | LittleEndian => bytes_le x
  | BigEndian => rev (bytes_le x)
  end.

(** The [uint32_t] value denoted by four bytes of memory (what
    [memcpy(op, packet, sizeof( *op))] leaves in [*op]). *)
Definition u32_le (bs : list Z) : Z :=
  Z.lor (nth 0 bs 0)
    (Z.lor (Z.shiftl (nth 1 bs 0) 8)
       (Z.lor (Z.shiftl (nth 2 bs 0) 16) (Z.shiftl (nth 3 bs 0) 24))).

Definition u32_of_mem (host : endianness) (bs : list Z) : Z :=
  match host with
  | LittleEndian => u32_le bs
  | BigEndian => u32_le (rev (firstn 4 bs))
  end.

(** libc [htonl]: a byte swap on a little-endian host, the identity on a
    big-endian one. *)
Definition bswap_32 (x : Z) : Z :=
  Z.lor (Z.shiftl (Z.land x 255) 24)
    (Z.lor (Z.shiftl (Z.land x 65280) 8)
       (Z.lor (Z.land (Z.shiftr x 8) 65280)
          (Z.land (Z.shiftr x 24) 255))).

Definition htonl (host : endianness) (x : Z) : Z :=
  match host with
  | LittleEndian => bswap_32 x
  | BigEndian => x
  end.

(** libc [htons], the 16-bit counterpart. *)
Definition bswap_16 (x : Z) : Z :=
  Z.lor (Z.shiftl (Z.land x 255) 8) (Z.land (Z.shiftr x 8) 255).

Definition htons (host : endianness) (x : Z) : Z :=
  match host with
  | LittleEndian => bswap_16 x
  | BigEndian => x
  end.

(** Big-endian wire encoding of a 32-bit value, most significant byte
    first: the reference the encoder is compared with. *)
Definition big_endian32 (x : Z) : list Z :=
  [ (x / 2 ^ 24) mod 256; (x / 2 ^ 16) mod 256; (x / 2 ^ 8) mod 256; x mod 256 ].

(** The value a big-endian 4-byte field denotes. *)
Definition big_endian32_value (bs : list Z) : Z :=
  nth 0 bs 0 * 2 ^ 24 + nth 1 bs 0 * 2 ^ 16 + nth 2 bs 0 * 2 ^ 8 + nth 3 bs 0.

(** The 6-bit command field of an opcode, bits 12 to 17. *)
Definition command_field (op : Z) : Z := (op / 2 ^ 12) mod 2 ^ 6.

(** ** Constants of the headers *)

(** Modelled from the spec: [HEADER_LEN] is defined in net.h, which is not
    among the sources; the spec gives "header length = 5 bytes". *)
Definition HEADER_LEN : Z := 5.

(** Modelled from the spec: [JBOD_BLOCK_SIZE] is defined in jbod.h, which
    is not among the sources; the spec gives "block size = 256 bytes". *)
Definition JBOD_BLOCK_SIZE : Z := 256.

(** ** Buffers *)

(** Store [data] into [buf] from index [off] on. *)
Definition blit (buf : list Z) (off : nat) (data : list Z) : list Z :=
  firstn off buf ++ data ++ skipn (off + length data) buf.

(** [memcpy(dst + off, src, n)]. *)
Definition memcpy (dst : list Z) (off : Z) (src : list Z) (n : Z) : list Z :=
  blit dst (Z.to_nat off) (firstn (Z.to_nat n) src).

(** ** The socket *)

(** What the peer and the kernel will do at the next [read]: deliver a
    segment of bytes, or fail.  An exhausted script is a peer that has
    closed the stream: every further [read] returns 0. *)
Inductive rd_event : Type :=
| RdSeg (bytes : list Z)
| RdErr.

(** What the kernel will do at the next [write]: accept up to [n] bytes, or
    fail.  With an exhausted script it accepts whatever is offered. *)
Inductive wr_event : Type :=
| WrAcc (n : positive)
| WrErr.

Record world : Type := mkWorld {
  inbox : list rd_event;     (* what is still to arrive *)
  outbox : list wr_event;    (* how the next writes complete *)
  wire : list Z;             (* every byte written so far, in order *)
  rd_calls : list Z          (* the count argument of every read so far *)
}.

(** ** A state monad with divergence *)

Definition M (A : Type) : Type := world -> option (A * world).

Definition pure {A : Type} (a : A) : M A := fun w => Some (a, w).

Definition bind {A B : Type} (m : M A) (k : A -> M B) : M B :=
  fun w => match m w with
           | Some (a, w') => k a w'
           | None => None
           end.

Definition out_of_fuel {A : Type} : M A := fun _ => None.

Notation "x <- m ;; k" := (bind m (fun x => k))
  (at level 61, m at next level, right associativity).
Notation "' p <- m ;; k" := (bind m (fun x => let p := x in k))
  (at level 61, p pattern, m at next level, right associativity).

(** ** System calls *)

(** [read(fd, &buf[off], count)]: the return value and the buffer. *)
Definition sys_read (fd : Z) (buf : list Z) (off count : Z) : M (Z * list Z) :=
  fun w =>
    let calls := rd_calls w ++ [count] in
    match inbox w with
    | [] =>
        Some ((0, buf), mkWorld [] (outbox w) (wire w) calls)
    | RdErr :: rest =>
        Some ((-1, buf), mkWorld rest (outbox w) (wire w) calls)
    | RdSeg bytes :: rest =>
        let k := Nat.min (Z.to_nat count) (length bytes) in
        let left := if (k <? length bytes)%nat
                    then RdSeg (skipn k bytes) :: rest else rest in
        Some ((Z.of_nat k, blit buf (Z.to_nat off) (firstn k bytes)),
              mkWorld left (outbox w) (wire w) calls)
    end.

(** [write(fd, &buf[off], count)]: the return value. *)
Definition sys_write (fd : Z) (buf : list Z) (off count : Z) : M Z :=
  fun w =>
    match outbox w with
    | [] =>
        let k := Z.to_nat count in
        Some (Z.of_nat k,
              mkWorld (inbox w) []
                (wire w ++ firstn k (skipn (Z.to_nat off) buf)) (rd_calls w))
    | WrErr :: rest =>
        Some (-1, mkWorld (inbox w) rest (wire w) (rd_calls w))
    | WrAcc n :: rest =>
        let k := Nat.min (Z.to_nat count) (Pos.to_nat n) in
        Some (Z.of_nat k,
              mkWorld (inbox w) rest
                (wire w ++ firstn k (skipn (Z.to_nat off) buf)) (rd_calls w))
    end.

(** ** nread and nwrite *)

Fixpoint nread_loop (fuel : nat) (fd len r_byte : Z) (buf : list Z)
  : M (bool * list Z) :=
  if r_byte <? len then
    match fuel with
    | O => out_of_fuel
    | S fuel' =>
        '(num, buf) <- sys_read fd buf r_byte (wrap_int (len - r_byte)) ;;
        if num =? -1 then pure (false, buf)
        else nread_loop fuel' fd len (wrap_int (r_byte + num)) buf
    end
  else pure (true, buf).

Definition nread (fuel : nat) (fd len : Z) (buf : list Z) : M (bool * list Z) :=
  nread_loop fuel fd len 0 buf.

Fixpoint nwrite_loop (fuel : nat) (fd len w_byte : Z) (buf : list Z) : M bool :=
  if w_byte <? len then
    match fuel with
    | O => out_of_fuel
    | S fuel' =>
        num <- sys_write fd buf w_byte (wrap_int (len - w_byte)) ;;
        if num =? -1 then pure false
        else nwrite_loop fuel' fd len (wrap_int (w_byte + num)) buf
    end
  else pure true.

Definition nwrite (fuel : nat) (fd len : Z) (buf : list Z) : M bool :=
  nwrite_loop fuel fd len 0 buf.

(** ** Packets *)

(** The three out-parameters of [recv_packet]. *)
Record response : Type := mkResponse {
  r_op : Z;
  r_ret : Z;
  r_block : list Z
}.

(** What the operating system answers to [jbod_connect]'s three calls:
    [inet_aton] (None for a malformed address), [socket], and [connect] on
    a descriptor, an address and a port. *)
Record os_net : Type := mkOsNet {
  os_inet_aton : string -> option Z;
  os_socket : Z;
  os_connect : Z -> Z -> Z -> Z
}.

Section Client.

(** The byte order of the host. *)
Variable host : endianness.

(** [JBOD_WRITE_BLOCK] is an enumerator of jbod.h, which is not among the
    sources, and the spec gives it no value: it stays a parameter. *)
Variable JBOD_WRITE_BLOCK : Z.

(** [packet] is what the local array [uint8_t packet[HEADER_LEN]] holds
    on entry; [op], [ret] and [block] are what the out-parameters point
    to on entry. *)
Definition recv_packet (fuel : nat) (sd : Z) (op ret : Z) (block : list Z)
    (packet : list Z) : M (bool * response) :=
  '(status, packet) <- nread fuel sd HEADER_LEN packet ;;
  if negb status then pure (false, mkResponse op ret block)
  else
    let op := u32_of_mem host (firstn 4 packet) in
    let ret := nth 4 packet 0 in
    if negb (Z.land ret 1 =? 0) then pure (false, mkResponse op ret block)
    else if negb (Z.land ret 2 =? 0) then
      '(status, block) <- nread fuel sd JBOD_BLOCK_SIZE block ;;
      if negb status then pure (false, mkResponse op ret block)
      else pure (true, mkResponse op ret block)
    else pure (true, mkResponse op ret block).

(** [packet] is what the local array [uint8_t packet[HEADER_LEN + 256]]
    holds on entry.  [past_t_op] is the byte that lies after the local
    [t_op]: in the branch of the other commands [memcpy] takes
    [HEADER_LEN] = 5 bytes from the 4-byte object [t_op], so that byte
    is copied too. *)
Definition send_packet (fuel : nat) (sd : Z) (op : Z) (block : list Z)
    (packet : list Z) (past_t_op : Z) : M bool :=
  let bitmask := 63 in
  let bitmask := wrap_u32 (Z.shiftl bitmask 12) in
  let cmd := Z.land op bitmask in
  let cmd := Z.shiftr cmd 12 in
  let t_op := htonl host op in
  if cmd =? JBOD_WRITE_BLOCK then
    let ret := 2 in
    let packet := memcpy packet 0 (mem_of_u32 host t_op) 4 in
    let packet := memcpy packet 4 [ret] 1 in
    let packet := memcpy packet HEADER_LEN block 256 in
    nwrite fuel sd (HEADER_LEN + 256) packet
  else
    let packet := memcpy packet 0 (mem_of_u32 host t_op ++ [past_t_op]) HEADER_LEN in
    nwrite fuel sd HEADER_LEN packet.

(** The global [cli_sd] is threaded: the result is the returned flag and
    the new value of [cli_sd]. *)
Definition jbod_connect (os : os_net) (ip : string) (port : Z) (cli_sd : Z)
  : bool * Z :=
  match os_inet_aton os ip with
  | None => (false, cli_sd)
  | Some addr =>
      let cli_sd := os_socket os in
      if cli_sd =? -1 then (false, cli_sd)
      else if os_connect os cli_sd addr (htons host port) =? -1
           then (false, cli_sd)
           else (true, cli_sd)
  end.

(** The descriptor handed to [close], and the new value of [cli_sd]. *)
Definition jbod_disconnect (cli_sd : Z) : Z * Z := (cli_sd, -1).

(** The returned [int] and the caller's block.  [ret] is the local
    [uint8_t ret], not initialised; the other extra arguments are the
    locals of the two callees. *)
Definition jbod_client_operation (fuel : nat) (cli_sd : Z) (op : Z)
    (block : list Z) (ret : Z) (send_buf : list Z) (past_t_op : Z)
    (recv_buf : list Z) : M (Z * list Z) :=
  status <- send_packet fuel cli_sd op block send_buf past_t_op ;;
  if negb status then pure (-1, block)
  else
    '(status, out) <- recv_packet fuel cli_sd op ret block recv_buf ;;
    if negb status then pure (-1, r_block out)
    else pure (0, r_block out).

End Client.

(** ** Measures of a script *)

(** The bytes that a read script still holds, in order. *)
Definition pending (evs : list rd_event) : list Z :=
  flat_map (fun e => match e with RdSeg bytes => bytes | RdErr => [] end) evs.

(** The number of bytes that a run of accepting writes takes. *)
Definition accepted (accs : list positive) : Z :=
  fold_right (fun n s => Z.pos n + s) 0 accs.

(** ** Sample runs *)

(** A socket with nothing to read and no partial write scheduled. *)
Definition quiet : world := mkWorld [] [] [] [].

(** A reply on the wire, delivered in the given segments. *)
Definition replying (segs : list (list Z)) : world :=
  mkWorld (map RdSeg segs) [] [] [].

(** A listener-less address: the address parses, a socket is created as
    descriptor 3, and [connect] is refused. *)
Definition refused : os_net :=
  mkOsNet (fun _ => Some 2130706433) 3 (fun _ _ _ => -1).

(** * Facts *)

(** ** Machine integers and byte order *)

Lemma wrap_int_small (z : Z) : - 2 ^ 31 <= z <= INT_MAX -> wrap_int z = z.
Proof.
  unfold wrap_int, INT_MAX. intros H.
  rewrite Z.mod_small; lia.
Qed.

Lemma testbit_255 (n : Z) : Z.testbit 255 n = (0 <=? n) && (n <? 8).
Proof. change 255 with (Z.ones 8). apply Z.testbit_ones. lia. Qed.

Lemma testbit_65280 (n : Z) : Z.testbit 65280 n = (8 <=? n) && (n <? 16).
Proof.
  change 65280 with (Z.shiftl (Z.ones 8) 8).
  destruct (Z.leb_spec 0 n) as [Hn | Hn].
  - rewrite Z.shiftl_spec by lia. rewrite Z.testbit_ones by lia.
    destruct (Z.leb_spec 0 (n - 8)), (Z.leb_spec 8 n),
      (Z.ltb_spec (n - 8) 8), (Z.ltb_spec n 16); cbn [andb]; try reflexivity; lia.
  - rewrite Z.testbit_neg_r by lia.
    destruct (Z.leb_spec 8 n); [lia | reflexivity].
Qed.

Lemma byte_of_shift (x k : Z) :
  0 <= k -> Z.land (Z.shiftr x k) 255 = (x / 2 ^ k) mod 256.
Proof.
  intros Hk. rewrite Z.shiftr_div_pow2 by lia.
  change 255 with (Z.ones 8). rewrite Z.land_ones by lia. reflexivity.
Qed.

Ltac bit_cases :=
  repeat match goal with
    | |- context [(?a <=? ?b)] => destruct (Z.leb_spec a b)
    | |- context [(?a <? ?b)] => destruct (Z.ltb_spec a b)
    end;
  cbn [andb orb]; rewrite ?andb_true_r, ?andb_false_r, ?orb_false_r;
  cbn [andb orb]; try reflexivity; try lia; try (f_equal; lia).

Lemma bswap_32_byte (x k : Z) :
  0 <= k <= 3 ->
  Z.land (Z.shiftr (bswap_32 x) (8 * k)) 255 =
  Z.land (Z.shiftr x (8 * (3 - k))) 255.
Proof.
  intros Hk. apply Z.bits_inj'. intros n Hn. unfold bswap_32.
  rewrite !Z.land_spec, !Z.shiftr_spec by lia.
  rewrite !Z.lor_spec, !Z.land_spec, !Z.shiftr_spec by lia.
  rewrite !Z.shiftl_spec by lia.
  rewrite !Z.land_spec, !testbit_255, !testbit_65280.
  bit_cases.
Qed.

Lemma mem_of_u32_htonl (host : endianness) (x : Z) :
  mem_of_u32 host (htonl host x) = big_endian32 x.
Proof.
  unfold big_endian32. rewrite <- !byte_of_shift by lia.
  replace (x mod 256) with (Z.land (Z.shiftr x 0) 255)
    by (rewrite byte_of_shift by lia; rewrite Z.div_1_r; reflexivity).
  destruct host; cbn [mem_of_u32 htonl].
  - pose proof (bswap_32_byte x 0) as B0. pose proof (bswap_32_byte x 1) as B1.
    pose proof (bswap_32_byte x 2) as B2. pose proof (bswap_32_byte x 3) as B3.
    change (8 * 0) with 0 in *. change (8 * 1) with 8 in *.
    change (8 * 2) with 16 in *. change (8 * 3) with 24 in *.
    change (8 * (3 - 0)) with 24 in *. change (8 * (3 - 1)) with 16 in *.
    change (8 * (3 - 2)) with 8 in *. change (8 * (3 - 3)) with 0 in *.
    rewrite Z.shiftr_0_r in B0.
    unfold bytes_le. rewrite B0, B1, B2, B3 by lia. reflexivity.
  - reflexivity.
Qed.

Lemma command_field_code (op : Z) :
  Z.shiftr (Z.land op (wrap_u32 (Z.shiftl 63 12))) 12 = command_field op.
Proof.
  unfold command_field. rewrite Z.shiftr_land.
  change (Z.shiftr (wrap_u32 (Z.shiftl 63 12)) 12) with (Z.ones 6).
  rewrite Z.land_ones by lia. rewrite Z.shiftr_div_pow2 by lia. reflexivity.
Qed.

Lemma land_1_is_bit0 (x : Z) : (Z.land x 1 =? 0) = negb (Z.testbit x 0).
Proof.
  change 1 with (Z.ones 1). rewrite Z.land_ones by lia.
  change (2 ^ 1) with 2. rewrite <- Z.bit0_mod.
  destruct (Z.testbit x 0); reflexivity.
Qed.

Lemma land_2_is_bit1 (x : Z) : (Z.land x 2 =? 0) = negb (Z.testbit x 1).
Proof.
  destruct (Z.testbit x 1) eqn:E; cbn [negb].
  - apply Z.eqb_neq. intros H0.
    assert (Z.testbit (Z.land x 2) 1 = true) as H
      by (rewrite Z.land_spec, E; reflexivity).
    rewrite H0 in H. discriminate H.
  - apply Z.eqb_eq. apply Z.bits_inj'. intros n Hn.
    rewrite Z.land_spec, Z.bits_0.
    change 2 with (2 ^ 1). rewrite Z.pow2_bits_eqb by lia.
    destruct (Z.eqb_spec 1 n) as [<- | Hne].
    + rewrite E. reflexivity.
    + apply andb_false_r.
Qed.

(** ** Buffers *)

Lemma blit_nil (buf : list Z) (off : nat) : blit buf off [] = buf.
Proof.
  unfold blit. cbn [length app]. rewrite Nat.add_0_r. apply firstn_skipn.
Qed.

Lemma blit_app (a b d : list Z) :
  blit (a ++ b) (length a) d = a ++ d ++ skipn (length d) b.
Proof.
  unfold blit. rewrite firstn_app, firstn_all, Nat.sub_diag. cbn [firstn].
  rewrite app_nil_r. rewrite skipn_app.
  rewrite skipn_all2 by lia. cbn [app].
  replace (length a + length d - length a)%nat with (length d) by lia.
  reflexivity.
Qed.

Lemma blit_split (buf : list Z) (off : nat) (d : list Z) :
  (off <= length buf)%nat ->
  blit buf off d = firstn off buf ++ d ++ skipn (length d) (skipn off buf).
Proof.
  intros Hoff. unfold blit. rewrite skipn_skipn.
  replace (length d + off)%nat with (off + length d)%nat by lia. reflexivity.
Qed.

Lemma blit_blit (buf : list Z) (off : nat) (d1 d2 : list Z) :
  (off <= length buf)%nat ->
  blit (blit buf off d1) (off + length d1) d2 = blit buf off (d1 ++ d2).
Proof.
  intros Hoff. rewrite (blit_split buf off d1), (blit_split buf off (d1 ++ d2)) by assumption.
  assert (length (firstn off buf) = off) as Hl by (rewrite length_firstn; lia).
  rewrite app_assoc.
  replace (off + length d1)%nat with (length (firstn off buf ++ d1))
    by (rewrite length_app; lia).
  rewrite blit_app. rewrite <- !app_assoc. do 2 f_equal.
  rewrite length_app, !skipn_skipn. do 2 f_equal. lia.
Qed.

Lemma firstn_add (A : Type) (a b : nat) (l : list A) :
  firstn (a + b) l = firstn a l ++ firstn b (skipn a l).
Proof.
  revert l. induction a as [| a IH]; intros l; [reflexivity |].
  destruct l as [| x l]; cbn [Nat.add firstn skipn app].
  - rewrite firstn_nil. reflexivity.
  - rewrite IH. reflexivity.
Qed.

(** ** The loops, one iteration at a time *)

Lemma nread_loop_eq (fuel : nat) (fd len r_byte : Z) (buf : list Z) :
  nread_loop fuel fd len r_byte buf =
  if r_byte <? len then
    match fuel with
    | O => out_of_fuel
    | S fuel' =>
        '(num, buf) <- sys_read fd buf r_byte (wrap_int (len - r_byte)) ;;
        if num =? -1 then pure (false, buf)
        else nread_loop fuel' fd len (wrap_int (r_byte + num)) buf
    end
  else pure (true, buf).
Proof. destruct fuel; reflexivity. Qed.

Lemma nwrite_loop_eq (fuel : nat) (fd len w_byte : Z) (buf : list Z) :
  nwrite_loop fuel fd len w_byte buf =
  if w_byte <? len then
    match fuel with
    | O => out_of_fuel
    | S fuel' =>
        num <- sys_write fd buf w_byte (wrap_int (len - w_byte)) ;;
        if num =? -1 then pure false
        else nwrite_loop fuel' fd len (wrap_int (w_byte + num)) buf
    end
  else pure true.
Proof. destruct fuel; reflexivity. Qed.

(** One iteration of [nread] that takes a whole segment. *)
Lemma nread_loop_segment (fuel : nat) (fd len r_byte : Z) (buf : list Z)
    (w : world) (seg : list Z) (tl : list rd_event) :
  inbox w = RdSeg seg :: tl ->
  0 <= r_byte < len -> len <= INT_MAX ->
  r_byte + Z.of_nat (length seg) <= len ->
  nread_loop (S fuel) fd len r_byte buf w =
  nread_loop fuel fd len (r_byte + Z.of_nat (length seg))
    (blit buf (Z.to_nat r_byte) seg)
    (mkWorld tl (outbox w) (wire w) (rd_calls w ++ [len - r_byte])).
Proof.
  intros Hin Hr Hmax Hseg. rewrite nread_loop_eq.
  replace (r_byte <? len) with true by (symmetry; apply Z.ltb_lt; lia).
  unfold bind, sys_read. rewrite Hin.
  rewrite wrap_int_small by (unfold INT_MAX in *; lia).
  rewrite Nat.min_r by lia. rewrite Nat.ltb_irrefl, firstn_all.
  replace (Z.of_nat (length seg) =? -1) with false
    by (symmetry; apply Z.eqb_neq; lia).
  rewrite wrap_int_small by (unfold INT_MAX in *; lia).
  reflexivity.
Qed.

(** One iteration of [nwrite] whose [write] takes [n] bytes. *)
Lemma nwrite_loop_accept (fuel : nat) (fd len w_byte : Z) (buf : list Z)
    (w : world) (n : positive) (tl : list wr_event) :
  outbox w = WrAcc n :: tl ->
  0 <= w_byte -> len <= INT_MAX ->
  w_byte + Z.pos n <= len ->
  nwrite_loop (S fuel) fd len w_byte buf w =
  nwrite_loop fuel fd len (w_byte + Z.pos n) buf
    (mkWorld (inbox w) tl
       (wire w ++ firstn (Pos.to_nat n) (skipn (Z.to_nat w_byte) buf))
       (rd_calls w)).
Proof.
  intros Hout Hw Hmax Hn. rewrite nwrite_loop_eq.
  replace (w_byte <? len) with true by (symmetry; apply Z.ltb_lt; lia).
  unfold bind, sys_write. rewrite Hout.
  rewrite wrap_int_small by (unfold INT_MAX in *; lia).
  rewrite Nat.min_r by lia.
  replace (Z.of_nat (Pos.to_nat n)) with (Z.pos n) by lia.
  replace (Z.pos n =? -1) with false by (symmetry; apply Z.eqb_neq; lia).
  rewrite wrap_int_small by (unfold INT_MAX in *; lia).
  reflexivity.
Qed.

Lemma world_eta (w : world) :
  mkWorld (inbox w) (outbox w) (wire w) (rd_calls w) = w.
Proof. destruct w; reflexivity. Qed.

(** A run that has a result keeps it with more fuel. *)
Lemma nread_loop_more_fuel (fuel : nat) :
  forall (fd len r_byte : Z) (buf : list Z) (w : world) res,
    nread_loop fuel fd len r_byte buf w = Some res ->
    nread_loop (S fuel) fd len r_byte buf w = Some res.
Proof.
  induction fuel as [| fuel IH]; intros fd len r_byte buf w res Hrun;
    rewrite nread_loop_eq in Hrun; rewrite nread_loop_eq;
    destruct (r_byte <? len); try assumption; try discriminate Hrun.
  unfold bind in *.
  destruct (sys_read fd buf r_byte (wrap_int (len - r_byte)) w)
    as [[[num buf1] w1] |]; [| discriminate Hrun].
  destruct (num =? -1); [assumption | apply IH; assumption].
Qed.

Lemma nwrite_loop_more_fuel (fuel : nat) :
  forall (fd len w_byte : Z) (buf : list Z) (w : world) res,
    nwrite_loop fuel fd len w_byte buf w = Some res ->
    nwrite_loop (S fuel) fd len w_byte buf w = Some res.
Proof.
  induction fuel as [| fuel IH]; intros fd len w_byte buf w res Hrun;
    rewrite nwrite_loop_eq in Hrun; rewrite nwrite_loop_eq;
    destruct (w_byte <? len); try assumption; try discriminate Hrun.
  unfold bind in *.
  destruct (sys_write fd buf w_byte (wrap_int (len - w_byte)) w)
    as [[num w1] |]; [| discriminate Hrun].
  destruct (num =? -1); [assumption | apply IH; assumption].
Qed.

(** ** nread *)

Lemma nread_loop_deliver (fd len : Z) (rest : list rd_event) :
  len <= INT_MAX ->
  forall (segs : list (list Z)) (fuel : nat) (r_byte : Z) (buf : list Z)
         (w : world),
    0 <= r_byte ->
    r_byte + Z.of_nat (length (concat segs)) = len ->
    (Z.to_nat r_byte <= length buf)%nat ->
    Forall (fun s => s <> []) segs ->
    inbox w = map RdSeg segs ++ rest ->
    (length segs <= fuel)%nat ->
    exists calls,
      length calls = length segs /\
      nread_loop fuel fd len r_byte buf w =
      Some ((true, blit buf (Z.to_nat r_byte) (concat segs)),
            mkWorld rest (outbox w) (wire w) (rd_calls w ++ calls)).
Proof.
  intros Hmax segs. induction segs as [| seg segs IH];
    intros fuel r_byte buf w Hr Hsum Hbuf Hne Hin Hfuel.
  - exists []. split; [reflexivity |].
    cbn [concat length] in Hsum. rewrite nread_loop_eq.
    replace (r_byte <? len) with false by (symmetry; apply Z.ltb_ge; lia).
    cbn [concat]. rewrite blit_nil, app_nil_r.
    cbn [map app] in Hin. rewrite <- Hin. rewrite world_eta. reflexivity.
  - apply Forall_cons_iff in Hne. destruct Hne as [Hseg Hne'].
    assert (1 <= length seg)%nat as Hlen
      by (destruct seg; [congruence | cbn; lia]).
    cbn [concat] in Hsum. rewrite length_app in Hsum.
    destruct fuel as [| fuel]; [cbn in Hfuel; lia |].
    rewrite (nread_loop_segment fuel fd len r_byte buf w seg
               (map RdSeg segs ++ rest)) by (assumption || lia).
    destruct (IH fuel (r_byte + Z.of_nat (length seg))
                (blit buf (Z.to_nat r_byte) seg)
                (mkWorld (map RdSeg segs ++ rest) (outbox w) (wire w)
                   (rd_calls w ++ [len - r_byte])))
      as [calls [Hcalls Hrun]]; try lia; try assumption; try reflexivity.
    + unfold blit. rewrite !length_app, length_firstn. lia.
    + cbn in Hfuel. lia.
    + exists ((len - r_byte) :: calls). split; [cbn; lia |].
      rewrite Hrun. cbn [outbox wire rd_calls concat].
      replace (Z.to_nat (r_byte + Z.of_nat (length seg)))
        with (Z.to_nat r_byte + length seg)%nat by lia.
      rewrite blit_blit by assumption. rewrite <- app_assoc. reflexivity.
Qed.

Lemma nread_loop_error (fd len : Z) (rest : list rd_event) :
  len <= INT_MAX ->
  forall (segs : list (list Z)) (fuel : nat) (r_byte : Z) (buf : list Z)
         (w : world),
    0 <= r_byte ->
    r_byte + Z.of_nat (length (concat segs)) < len ->
    (Z.to_nat r_byte <= length buf)%nat ->
    inbox w = map RdSeg segs ++ RdErr :: rest ->
    (length segs < fuel)%nat ->
    exists calls,
      length calls = S (length segs) /\
      nread_loop fuel fd len r_byte buf w =
      Some ((false, blit buf (Z.to_nat r_byte) (concat segs)),
            mkWorld rest (outbox w) (wire w) (rd_calls w ++ calls)).
Proof.
  intros Hmax segs. induction segs as [| seg segs IH];
    intros fuel r_byte buf w Hr Hsum Hbuf Hin Hfuel;
    (destruct fuel as [| fuel]; [cbn in Hfuel; lia |]).
  - exists [len - r_byte]. split; [reflexivity |].
    cbn [concat length] in Hsum. rewrite nread_loop_eq.
    replace (r_byte <? len) with true by (symmetry; apply Z.ltb_lt; lia).
    unfold bind, sys_read. rewrite Hin. cbn [map app].
    rewrite (wrap_int_small (len - r_byte)) by (unfold INT_MAX in *; lia).
    cbn [concat]. rewrite blit_nil. reflexivity.
  - cbn [concat] in Hsum. rewrite length_app in Hsum.
    rewrite (nread_loop_segment fuel fd len r_byte buf w seg
               (map RdSeg segs ++ RdErr :: rest)) by (assumption || lia).
    destruct (IH fuel (r_byte + Z.of_nat (length seg))
                (blit buf (Z.to_nat r_byte) seg)
                (mkWorld (map RdSeg segs ++ RdErr :: rest) (outbox w) (wire w)
                   (rd_calls w ++ [len - r_byte])))
      as [calls [Hcalls Hrun]]; try lia; try assumption; try reflexivity.
    + unfold blit. rewrite !length_app, length_firstn. lia.
    + cbn in Hfuel. lia.
    + exists ((len - r_byte) :: calls). split; [cbn; lia |].
      rewrite Hrun. cbn [outbox wire rd_calls concat].
      replace (Z.to_nat (r_byte + Z.of_nat (length seg)))
        with (Z.to_nat r_byte + length seg)%nat by lia.
      rewrite blit_blit by assumption. rewrite <- app_assoc. reflexivity.
Qed.

(** A peer that closes the stream before [len] bytes have come: whatever
    the fuel, the loop has no result. *)
Lemma nread_loop_closed_early (fd len : Z) :
  len <= INT_MAX ->
  forall (fuel : nat) (segs : list (list Z)) (r_byte : Z) (buf : list Z)
         (w : world),
    0 <= r_byte ->
    r_byte + Z.of_nat (length (concat segs)) < len ->
    inbox w = map RdSeg segs ->
    nread_loop fuel fd len r_byte buf w = None.
Proof.
  intros Hmax fuel. induction fuel as [| fuel IH];
    intros segs r_byte buf w Hr Hsum Hin.
  - rewrite nread_loop_eq.
    replace (r_byte <? len) with true by (symmetry; apply Z.ltb_lt; lia).
    reflexivity.
  - destruct segs as [| seg segs].
    + rewrite nread_loop_eq.
      replace (r_byte <? len) with true by (symmetry; apply Z.ltb_lt; lia).
      unfold bind, sys_read. rewrite Hin. cbn [map].
      change (0 =? -1) with false. cbv iota beta.
      rewrite Z.add_0_r, (wrap_int_small r_byte) by (unfold INT_MAX in *; lia).
      apply (IH []); [assumption | assumption | reflexivity].
    + cbn [concat] in Hsum. rewrite length_app in Hsum.
      rewrite (nread_loop_segment fuel fd len r_byte buf w seg (map RdSeg segs))
        by (assumption || lia).
      apply (IH segs); [lia | lia | reflexivity].
Qed.

(** What a successful [nread] has done: the next bytes of the stream lie in
    the buffer, and nothing else has changed. *)
Lemma nread_loop_true (fd len : Z) :
  len <= INT_MAX ->
  forall (fuel : nat) (r_byte : Z) (buf : list Z) (w : world)
         (buf' : list Z) (w' : world),
    0 <= r_byte <= len ->
    (Z.to_nat r_byte <= length buf)%nat ->
    nread_loop fuel fd len r_byte buf w = Some ((true, buf'), w') ->
    exists data,
      Z.of_nat (length data) = len - r_byte /\
      buf' = blit buf (Z.to_nat r_byte) data /\
      pending (inbox w) = data ++ pending (inbox w') /\
      outbox w' = outbox w /\ wire w' = wire w.
Proof.
  intros Hmax fuel. induction fuel as [| fuel IH];
    intros r_byte buf w buf' w' Hr Hbuf Hrun;
    rewrite nread_loop_eq in Hrun;
    destruct (Z.ltb_spec r_byte len) as [Hlt | Hge];
    try discriminate Hrun;
    try (injection Hrun as <- <-; exists []; rewrite blit_nil;
         repeat split; cbn [length]; lia).
  unfold bind, sys_read in Hrun.
  rewrite (wrap_int_small (len - r_byte)) in Hrun by (unfold INT_MAX in *; lia).
  destruct (inbox w) as [| [seg |] tl] eqn:Hin.
  - change (0 =? -1) with false in Hrun. cbv iota beta in Hrun.
    rewrite Z.add_0_r, (wrap_int_small r_byte) in Hrun
      by (unfold INT_MAX in *; lia).
    destruct (IH _ _ _ _ _ Hr Hbuf Hrun) as (data & Hlen & Hb & Hp & Ho & Hw).
    exists data. cbn [inbox outbox wire] in *. repeat split; assumption.
  - set (k := Nat.min (Z.to_nat (len - r_byte)) (length seg)) in *.
    assert (k <= length seg)%nat as Hk by (subst k; lia).
    assert (Z.of_nat k <= len - r_byte) as Hk' by (subst k; lia).
    clearbody k. cbv iota beta in Hrun.
    replace (Z.of_nat k =? -1) with false in Hrun
      by (symmetry; apply Z.eqb_neq; lia).
    rewrite wrap_int_small in Hrun by (unfold INT_MAX in *; lia).
    apply IH in Hrun; [| lia |].
    + destruct Hrun as (data & Hlen & Hb & Hp & Ho & Hw).
      exists (firstn k seg ++ data). cbn [inbox outbox wire] in *.
      assert (length (firstn k seg) = k) as Hfk by (rewrite length_firstn; lia).
      repeat split; try assumption.
      * rewrite length_app, Hfk. lia.
      * rewrite Hb.
        replace (Z.to_nat (r_byte + Z.of_nat k))
          with (Z.to_nat r_byte + length (firstn k seg))%nat by lia.
        apply blit_blit. assumption.
      * cbn [pending flat_map]. fold (pending tl). rewrite <- app_assoc, <- Hp.
        destruct (Nat.ltb_spec k (length seg)) as [Hlt' | Hge'].
        -- cbn [pending flat_map]. fold (pending tl).
           rewrite app_assoc, firstn_skipn. reflexivity.
        -- rewrite firstn_all2 by lia. reflexivity.
    + unfold blit. rewrite !length_app, !length_firstn. lia.
  - change (-1 =? -1) with true in Hrun. discriminate Hrun.
Qed.

(** ** nwrite *)

Lemma accepted_cons (n : positive) (accs : list positive) :
  accepted (n :: accs) = Z.pos n + accepted accs.
Proof. reflexivity. Qed.

Lemma accepted_nonneg (accs : list positive) : 0 <= accepted accs.
Proof.
  induction accs as [| n accs IH]; [cbn; lia | rewrite accepted_cons; lia].
Qed.

Lemma nwrite_loop_deliver (fd len : Z) (buf : list Z) (rest : list wr_event) :
  len <= INT_MAX ->
  forall (accs : list positive) (fuel : nat) (w_byte : Z) (w : world),
    0 <= w_byte ->
    w_byte + accepted accs = len ->
    outbox w = map WrAcc accs ++ rest ->
    (length accs <= fuel)%nat ->
    nwrite_loop fuel fd len w_byte buf w =
    Some (true,
          mkWorld (inbox w) rest
            (wire w ++ firstn (Z.to_nat (accepted accs))
                         (skipn (Z.to_nat w_byte) buf))
            (rd_calls w)).
Proof.
  intros Hmax accs. induction accs as [| n accs IH];
    intros fuel w_byte w Hw Hsum Hout Hfuel.
  - change (accepted []) with 0 in *. rewrite nwrite_loop_eq.
    replace (w_byte <? len) with false by (symmetry; apply Z.ltb_ge; lia).
    cbn [Z.to_nat firstn]. rewrite app_nil_r.
    cbn [map app] in Hout. rewrite <- Hout. rewrite world_eta. reflexivity.
  - rewrite accepted_cons in *.
    pose proof (accepted_nonneg accs) as Hpos.
    destruct fuel as [| fuel]; [cbn in Hfuel; lia |].
    rewrite (nwrite_loop_accept fuel fd len w_byte buf w n
               (map WrAcc accs ++ rest)) by (assumption || lia).
    rewrite IH; cbn [inbox outbox wire rd_calls]; try lia; try reflexivity.
    + rewrite <- app_assoc. do 3 f_equal.
      replace (Z.to_nat (Z.pos n + accepted accs))
        with (Pos.to_nat n + Z.to_nat (accepted accs))%nat by lia.
      rewrite firstn_add, skipn_skipn.
      replace (Z.to_nat (w_byte + Z.pos n))
        with (Pos.to_nat n + Z.to_nat w_byte)%nat by lia.
      reflexivity.
    + cbn in Hfuel. lia.
Qed.

Lemma nwrite_loop_error (fd len : Z) (buf : list Z) (rest : list wr_event) :
  len <= INT_MAX ->
  forall (accs : list positive) (fuel : nat) (w_byte : Z) (w : world),
    0 <= w_byte ->
    w_byte + accepted accs < len ->
    outbox w = map WrAcc accs ++ WrErr :: rest ->
    (length accs < fuel)%nat ->
    nwrite_loop fuel fd len w_byte buf w =
    Some (false,
          mkWorld (inbox w) rest
            (wire w ++ firstn (Z.to_nat (accepted accs))
                         (skipn (Z.to_nat w_byte) buf))
            (rd_calls w)).
Proof.
  intros Hmax accs. induction accs as [| n accs IH];
    intros fuel w_byte w Hw Hsum Hout Hfuel;
    (destruct fuel as [| fuel]; [cbn in Hfuel; lia |]).
  - change (accepted []) with 0 in *. rewrite nwrite_loop_eq.
    replace (w_byte <? len) with true by (symmetry; apply Z.ltb_lt; lia).
    unfold bind, sys_write. rewrite Hout. cbn [map app].
    cbn [Z.to_nat firstn]. rewrite app_nil_r. reflexivity.
  - rewrite accepted_cons in *.
    pose proof (accepted_nonneg accs) as Hpos.
    rewrite (nwrite_loop_accept fuel fd len w_byte buf w n
               (map WrAcc accs ++ WrErr :: rest)) by (assumption || lia).
    rewrite IH; cbn [inbox outbox wire rd_calls]; try lia; try reflexivity.
    + rewrite <- app_assoc. do 3 f_equal.
      replace (Z.to_nat (Z.pos n + accepted accs))
        with (Pos.to_nat n + Z.to_nat (accepted accs))%nat by lia.
      rewrite firstn_add, skipn_skipn.
      replace (Z.to_nat (w_byte + Z.pos n))
        with (Pos.to_nat n + Z.to_nat w_byte)%nat by lia.
      reflexivity.
    + cbn in Hfuel. lia.
Qed.

(** What a successful [nwrite] has done: the first [len] bytes of the
    buffer are on the wire, and nothing else has changed. *)
Lemma nwrite_loop_true (fd len : Z) (buf : list Z) :
  len <= INT_MAX ->
  forall (fuel : nat) (w_byte : Z) (w w' : world),
    0 <= w_byte <= len ->
    nwrite_loop fuel fd len w_byte buf w = Some (true, w') ->
    wire w' = wire w ++ firstn (Z.to_nat (len - w_byte))
                          (skipn (Z.to_nat w_byte) buf) /\
    inbox w' = inbox w /\ rd_calls w' = rd_calls w.
Proof.
  intros Hmax fuel. induction fuel as [| fuel IH];
    intros w_byte w w' Hw Hrun;
    rewrite nwrite_loop_eq in Hrun;
    destruct (Z.ltb_spec w_byte len) as [Hlt | Hge];
    try discriminate Hrun;
    try (injection Hrun as <-;
         replace (len - w_byte) with 0 by lia;
         cbn [Z.to_nat firstn]; rewrite app_nil_r; repeat split).
  unfold bind, sys_write in Hrun.
  rewrite (wrap_int_small (len - w_byte)) in Hrun by (unfold INT_MAX in *; lia).
  destruct (outbox w) as [| [n |] tl] eqn:Hout.
  - replace (Z.of_nat (Z.to_nat (len - w_byte))) with (len - w_byte) in Hrun by lia.
    replace (len - w_byte =? -1) with false in Hrun
      by (symmetry; apply Z.eqb_neq; lia).
    rewrite wrap_int_small in Hrun by (unfold INT_MAX in *; lia).
    apply IH in Hrun; [| lia]. cbn [inbox wire rd_calls] in Hrun.
    destruct Hrun as (Hwire & Hi & Hc). repeat split; try assumption.
    rewrite Hwire. replace (len - (w_byte + (len - w_byte))) with 0 by lia.
    cbn [Z.to_nat firstn]. rewrite app_nil_r. reflexivity.
  - set (k := Nat.min (Z.to_nat (len - w_byte)) (Pos.to_nat n)) in *.
    assert (Z.of_nat k <= len - w_byte) as Hk by (subst k; lia).
    clearbody k.
    replace (Z.of_nat k =? -1) with false in Hrun
      by (symmetry; apply Z.eqb_neq; lia).
    rewrite wrap_int_small in Hrun by (unfold INT_MAX in *; lia).
    apply IH in Hrun; [| lia]. cbn [inbox wire rd_calls] in Hrun.
    destruct Hrun as (Hwire & Hi & Hc). repeat split; try assumption.
    rewrite Hwire, <- app_assoc. f_equal.
    replace (Z.to_nat (len - w_byte))
      with (k + Z.to_nat (len - (w_byte + Z.of_nat k)))%nat by lia.
    rewrite firstn_add, skipn_skipn.
    replace (Z.to_nat (w_byte + Z.of_nat k))
      with (k + Z.to_nat w_byte)%nat by lia.
    reflexivity.
  - change (-1 =? -1) with true in Hrun. discriminate Hrun.
Qed.

(** * The packet encoder *)

(** C5.  For an opcode whose command field is WRITE_BLOCK and a 256-byte
    block, [send_packet] hands [nwrite] a length of 261 and a buffer that
    starts with the request: the 4 bytes of the opcode in big-endian order,
    then the byte 2, then the 256 bytes of the block as they are.  When the
    transfer succeeds exactly these 261 bytes have been put on the wire. *)
Theorem send_packet_write_block
    (host : endianness) (JBOD_WRITE_BLOCK : Z) (fuel : nat) (sd op : Z)
    (block packet : list Z) (past_t_op : Z) :
  command_field op = JBOD_WRITE_BLOCK ->
  length block = 256%nat ->
  let request := big_endian32 op ++ 2 :: block in
  send_packet host JBOD_WRITE_BLOCK fuel sd op block packet past_t_op =
    nwrite fuel sd 261 (request ++ skipn 261 packet) /\
  length request = 261%nat /\
  forall w w',
    send_packet host JBOD_WRITE_BLOCK fuel sd op block packet past_t_op w =
      Some (true, w') ->
    wire w' = wire w ++ request.
Proof.
  intros Hcmd Hblock request.
  assert (send_packet host JBOD_WRITE_BLOCK fuel sd op block packet past_t_op =
          nwrite fuel sd 261 (request ++ skipn 261 packet)) as Heq.
  { unfold send_packet. rewrite command_field_code, Hcmd, Z.eqb_refl.
    rewrite mem_of_u32_htonl. unfold memcpy, HEADER_LEN.
    change (5 + 256) with 261. f_equal.
    change (Z.to_nat 0) with 0%nat. change (Z.to_nat 4) with 4%nat.
    change (Z.to_nat 1) with 1%nat. change (Z.to_nat 5) with 5%nat.
    change (Z.to_nat 256) with 256%nat.
    rewrite <- Hblock at 1. rewrite firstn_all.
    change (firstn 4 (big_endian32 op)) with (big_endian32 op).
    change (firstn 1 [2]) with [2].
    change (blit packet 0 (big_endian32 op))
      with (big_endian32 op ++ skipn 4 packet).
    change 4%nat with (length (big_endian32 op)) at 1.
    rewrite blit_app. rewrite app_assoc.
    change 5%nat with (length (big_endian32 op ++ [2])).
    rewrite blit_app. rewrite Hblock, !skipn_skipn.
    subst request. rewrite <- !app_assoc. reflexivity. }
  assert (length request = 261%nat) as Hlen
    by (subst request; rewrite length_app; cbn [length big_endian32]; lia).
  repeat split; try assumption.
  intros w w' Hrun. rewrite Heq in Hrun. unfold nwrite in Hrun.
  apply nwrite_loop_true in Hrun; [| unfold INT_MAX; lia | lia].
  destruct Hrun as [Hwire _]. rewrite Hwire. f_equal.
  change (Z.to_nat 0) with 0%nat. cbn [skipn].
  change (Z.to_nat (261 - 0)) with 261%nat.
  rewrite <- Hlen. rewrite firstn_app, firstn_all, Nat.sub_diag.
  cbn [firstn]. apply app_nil_r.
Qed.

(** C1, as the code has it.  For an opcode whose command field is not
    WRITE_BLOCK, [send_packet] hands [nwrite] a length of [HEADER_LEN] = 5
    and a buffer that starts with a 5-byte request whose first 4 bytes are
    the opcode in big-endian order; the block plays no part.  When the
    transfer succeeds exactly these 5 bytes have been put on the wire. *)
Theorem send_packet_other_command
    (host : endianness) (JBOD_WRITE_BLOCK : Z) (fuel : nat) (sd op : Z)
    (block packet : list Z) (past_t_op : Z) :
  command_field op <> JBOD_WRITE_BLOCK ->
  exists request,
    length request = 5%nat /\
    firstn 4 request = big_endian32 op /\
    (forall block',
       send_packet host JBOD_WRITE_BLOCK fuel sd op block' packet past_t_op =
         nwrite fuel sd HEADER_LEN (request ++ skipn 5 packet)) /\
    forall w w',
      send_packet host JBOD_WRITE_BLOCK fuel sd op block packet past_t_op w =
        Some (true, w') ->
      wire w' = wire w ++ request.
Proof.
  intros Hcmd. exists (big_endian32 op ++ [past_t_op]).
  assert (forall block',
            send_packet host JBOD_WRITE_BLOCK fuel sd op block' packet past_t_op =
            nwrite fuel sd HEADER_LEN
              ((big_endian32 op ++ [past_t_op]) ++ skipn 5 packet)) as Heq.
  { intros block'. unfold send_packet. rewrite command_field_code.
    replace (command_field op =? JBOD_WRITE_BLOCK) with false
      by (symmetry; apply Z.eqb_neq; assumption).
    rewrite mem_of_u32_htonl. reflexivity. }
  repeat split; try reflexivity; try assumption.
  intros w w' Hrun. rewrite Heq in Hrun. unfold nwrite in Hrun.
  apply nwrite_loop_true in Hrun;
    [| unfold INT_MAX, HEADER_LEN; lia | unfold HEADER_LEN; lia].
  destruct Hrun as [Hwire _]. rewrite Hwire. reflexivity.
Qed.

(** * The packet decoder *)

(** The decoder once the header has been read. *)
Lemma recv_packet_after_header
    (host : endianness) (fuel : nat) (sd op ret : Z)
    (block packet : list Z) (w : world) (pkt : list Z) (w1 : world) :
  nread fuel sd HEADER_LEN packet w = Some ((true, pkt), w1) ->
  let op' := u32_of_mem host (firstn 4 pkt) in
  let st := nth 4 pkt 0 in
  recv_packet host fuel sd op ret block packet w =
  if Z.testbit st 0 then Some ((false, mkResponse op' st block), w1)
  else if Z.testbit st 1 then
    match nread fuel sd JBOD_BLOCK_SIZE block w1 with
    | Some ((ok, block'), w2) => Some ((ok, mkResponse op' st block'), w2)
    | None => None
    end
  else Some ((true, mkResponse op' st block), w1).
Proof.
  intros Hhdr op' st. unfold recv_packet, bind. rewrite Hhdr.
  cbn [negb]. fold st. fold op'.
  rewrite land_1_is_bit0, land_2_is_bit1, !negb_involutive.
  destruct (Z.testbit st 0); [reflexivity |].
  destruct (Z.testbit st 1); [| reflexivity].
  destruct (nread fuel sd JBOD_BLOCK_SIZE block w1) as [[[[|] block'] w2] |];
    reflexivity.
Qed.

(** The five bytes of a header that has been read are the next five bytes
    of the stream. *)
Lemma header_bytes (fuel : nat) (sd : Z) (packet : list Z) (w : world)
    (pkt : list Z) (w1 : world) :
  nread fuel sd HEADER_LEN packet w = Some ((true, pkt), w1) ->
  length (firstn 5 pkt) = 5%nat /\
  pending (inbox w) = firstn 5 pkt ++ pending (inbox w1).
Proof.
  intros Hhdr. unfold nread in Hhdr.
  apply nread_loop_true in Hhdr;
    [| unfold INT_MAX, HEADER_LEN; lia | unfold HEADER_LEN; lia
     | change (Z.to_nat 0) with 0%nat; lia ].
  destruct Hhdr as (data & Hlen & Hb & Hp & _).
  unfold HEADER_LEN in Hlen. assert (length data = 5%nat) as Hl by lia.
  change (Z.to_nat 0) with 0%nat in Hb. unfold blit in Hb. cbn [firstn app] in Hb.
  rewrite Hb, <- Hl, firstn_app, firstn_all, Nat.sub_diag.
  cbn [firstn]. rewrite app_nil_r. split; [reflexivity | assumption].
Qed.

(** C6.  When bit 0 of the status byte is set, whatever bit 1 is,
    [recv_packet] returns false and leaves the socket exactly as the read
    of the 5-byte header left it: no further [read] is issued, and the
    bytes after the header stay in the stream. *)
Theorem recv_packet_error_bit
    (host : endianness) (fuel : nat) (sd op ret : Z)
    (block packet : list Z) (w : world) (pkt : list Z) (w1 : world) :
  nread fuel sd HEADER_LEN packet w = Some ((true, pkt), w1) ->
  Z.testbit (nth 4 pkt 0) 0 = true ->
  exists out,
    recv_packet host fuel sd op ret block packet w = Some ((false, out), w1) /\
    r_ret out = nth 4 pkt 0 /\
    pending (inbox w) = firstn 5 pkt ++ pending (inbox w1).
Proof.
  intros Hhdr Hbit0.
  rewrite (recv_packet_after_header host fuel sd op ret block packet w pkt w1 Hhdr).
  cbv zeta. rewrite Hbit0. eexists. split; [reflexivity |].
  split; [reflexivity |]. apply (header_bytes fuel sd packet w pkt w1 Hhdr).
Qed.

(** C7.  When bit 0 of the status byte is clear and bit 1 is set,
    [recv_packet] performs one [nread] of 256 bytes into the caller's
    block, right after the header, and returns what that [nread] returns.
    When it succeeds the first 256 bytes of the block are the next 256
    bytes of the stream, as they came. *)
Theorem recv_packet_block_follows
    (host : endianness) (fuel : nat) (sd op ret : Z)
    (block packet : list Z) (w : world) (pkt : list Z) (w1 : world) :
  nread fuel sd HEADER_LEN packet w = Some ((true, pkt), w1) ->
  Z.testbit (nth 4 pkt 0) 0 = false ->
  Z.testbit (nth 4 pkt 0) 1 = true ->
  recv_packet host fuel sd op ret block packet w =
    match nread fuel sd 256 block w1 with
    | Some ((ok, block'), w2) =>
        Some ((ok, mkResponse (u32_of_mem host (firstn 4 pkt)) (nth 4 pkt 0) block'),
              w2)
    | None => None
    end /\
  forall block' w2,
    nread fuel sd 256 block w1 = Some ((true, block'), w2) ->
    exists data,
      length data = 256%nat /\
      block' = data ++ skipn 256 block /\
      pending (inbox w1) = data ++ pending (inbox w2).
Proof.
  intros Hhdr Hbit0 Hbit1. split.
  - rewrite (recv_packet_after_header host fuel sd op ret block packet w pkt w1 Hhdr).
    cbv zeta. rewrite Hbit0, Hbit1. reflexivity.
  - intros block' w2 Hblk. unfold nread in Hblk.
    apply nread_loop_true in Hblk;
      [| unfold INT_MAX; lia | lia | change (Z.to_nat 0) with 0%nat; lia ].
    destruct Hblk as (data & Hlen & Hb & Hp & _).
    exists data. assert (length data = 256%nat) as Hl by lia.
    repeat split; try assumption.
    rewrite Hb. change (Z.to_nat 0) with 0%nat. unfold blit.
    cbn [firstn app Nat.add]. rewrite Hl. reflexivity.
Qed.

(** C10.  When bit 1 of the status byte is clear, on the failure path of
    bit 0 as on the path of a success without block, the caller's block
    comes back as it went in. *)
Theorem recv_packet_block_untouched
    (host : endianness) (fuel : nat) (sd op ret : Z)
    (block packet : list Z) (w : world) (pkt : list Z) (w1 : world) :
  nread fuel sd HEADER_LEN packet w = Some ((true, pkt), w1) ->
  Z.testbit (nth 4 pkt 0) 1 = false ->
  exists out,
    recv_packet host fuel sd op ret block packet w =
      Some ((negb (Z.testbit (nth 4 pkt 0) 0), out), w1) /\
    r_block out = block.
Proof.
  intros Hhdr Hbit1.
  rewrite (recv_packet_after_header host fuel sd op ret block packet w pkt w1 Hhdr).
  cbv zeta. rewrite Hbit1.
  destruct (Z.testbit (nth 4 pkt 0) 0); eexists; split; reflexivity.
Qed.

(** C3 fails on a little-endian host: the header bytes 00 00 50 00, the
    big-endian form of 0x5000, are stored in the opcode as 0x500000.  The
    four bytes are copied as they lie, without a conversion. *)
Theorem recv_packet_opcode_not_converted :
  exists out,
    recv_packet LittleEndian 1 3 0 0 (repeat 0 256%nat) (repeat 0 5%nat)
      (replying [[0; 0; 80; 0; 0]]) =
      Some ((true, out), mkWorld [] [] [] [5]) /\
    r_op out = 5242880 /\
    big_endian32_value [0; 0; 80; 0] = 20480 /\
    r_op out <> big_endian32_value [0; 0; 80; 0].
Proof.
  exists (mkResponse 5242880 0 (repeat 0 256%nat)).
  repeat split; discriminate.
Qed.

(** * Full-buffer transfer *)

(** C8.  When the next [read]s deliver non-empty segments that add up to
    [L] bytes, [nread] returns true with these [L] bytes at the front of
    the buffer, after one [read] per segment.  When the next [write]s
    accept positive counts that add up to [L], [nwrite] returns true with
    the first [L] bytes of the buffer put on the wire. *)
Theorem nread_nwrite_partial_completions
    (fuel : nat) (fd L : Z) (w : world)
    (segs : list (list Z)) (accs : list positive)
    (rin : list rd_event) (rout : list wr_event) (rbuf wbuf : list Z) :
  L <= INT_MAX ->
  Forall (fun s => s <> []) segs ->
  Z.of_nat (length (concat segs)) = L ->
  accepted accs = L ->
  inbox w = map RdSeg segs ++ rin ->
  outbox w = map WrAcc accs ++ rout ->
  L <= Z.of_nat (length wbuf) ->
  (length segs <= fuel)%nat ->
  (length accs <= fuel)%nat ->
  (exists w',
      nread fuel fd L rbuf w =
        Some ((true, concat segs ++ skipn (Z.to_nat L) rbuf), w') /\
      inbox w' = rin /\
      length (rd_calls w') = (length (rd_calls w) + length segs)%nat) /\
  (exists w',
      nwrite fuel fd L wbuf w = Some (true, w') /\
      wire w' = wire w ++ firstn (Z.to_nat L) wbuf /\
      Z.of_nat (length (firstn (Z.to_nat L) wbuf)) = L /\
      outbox w' = rout).
Proof.
  intros Hmax Hne Hsegs Haccs Hin Hout Hwbuf Hfr Hfw. split.
  - destruct (nread_loop_deliver fd L rin Hmax segs fuel 0 rbuf w)
      as [calls [Hcalls Hrun]]; try assumption; try lia.
    eexists. unfold nread. rewrite Hrun. split; [| split].
    + change (Z.to_nat 0) with 0%nat. unfold blit.
      cbn [firstn app Nat.add]. rewrite <- Hsegs, Nat2Z.id. reflexivity.
    + reflexivity.
    + cbn [rd_calls]. rewrite length_app. lia.
  - eexists. unfold nwrite.
    rewrite (nwrite_loop_deliver fd L wbuf rout Hmax accs fuel 0 w)
      by (assumption || lia).
    split; [reflexivity |]. cbn [wire outbox].
    change (Z.to_nat 0) with 0%nat. cbn [skipn]. rewrite Haccs.
    repeat split. rewrite length_firstn. lia.
Qed.

(** C9.  When a [read] fails before [len_r] bytes have come, [nread]
    returns false at once: the failed [read] is the last one issued and
    the script after it is untouched.  When a [write] fails before [len_w]
    bytes have gone, [nwrite] returns false at once: nothing is written
    after the failure. *)
Theorem nread_nwrite_error
    (fuel : nat) (fd len_r len_w : Z) (w : world)
    (segs : list (list Z)) (accs : list positive)
    (rin : list rd_event) (rout : list wr_event) (rbuf wbuf : list Z) :
  len_r <= INT_MAX ->
  len_w <= INT_MAX ->
  Z.of_nat (length (concat segs)) < len_r ->
  accepted accs < len_w ->
  inbox w = map RdSeg segs ++ RdErr :: rin ->
  outbox w = map WrAcc accs ++ WrErr :: rout ->
  (length segs < fuel)%nat ->
  (length accs < fuel)%nat ->
  (exists buf' w',
      nread fuel fd len_r rbuf w = Some ((false, buf'), w') /\
      inbox w' = rin /\
      length (rd_calls w') = (length (rd_calls w) + length segs + 1)%nat) /\
  (exists w',
      nwrite fuel fd len_w wbuf w = Some (false, w') /\
      outbox w' = rout /\
      wire w' = wire w ++ firstn (Z.to_nat (accepted accs)) wbuf).
Proof.
  intros Hmr Hmw Hsegs Haccs Hin Hout Hfr Hfw. split.
  - destruct (nread_loop_error fd len_r rin Hmr segs fuel 0 rbuf w)
      as [calls [Hcalls Hrun]]; try assumption; try lia.
    do 2 eexists. unfold nread. rewrite Hrun.
    split; [reflexivity |]. split; [reflexivity |].
    cbn [rd_calls]. rewrite length_app. lia.
  - eexists. unfold nwrite.
    rewrite (nwrite_loop_error fd len_w wbuf rout Hmw accs fuel 0 w)
      by (assumption || lia).
    repeat split.
Qed.

(** C4 fails: when the peer closes the stream before [len] bytes have come,
    every further [read] returns 0, the count stays below [len], and
    [nread] returns nothing however long it is run. *)
Theorem nread_never_returns_after_close
    (fuel : nat) (fd len : Z) (buf : list Z) (w : world)
    (segs : list (list Z)) :
  len <= INT_MAX ->
  inbox w = map RdSeg segs ->
  Z.of_nat (length (concat segs)) < len ->
  nread fuel fd len buf w = None.
Proof.
  intros Hmax Hin Hlt. unfold nread.
  apply (nread_loop_closed_early fd len Hmax fuel segs); [lia | lia | assumption].
Qed.

(** * The connection *)

(** C2 fails: when the address parses, [socket] yields a descriptor and
    [connect] fails, [jbod_connect] returns false and [cli_sd] holds the
    descriptor of the socket, not -1. *)
Theorem jbod_connect_refused_keeps_descriptor
    (host : endianness) (os : os_net) (ip : string) (port cli_sd addr : Z) :
  os_inet_aton os ip = Some addr ->
  os_socket os <> -1 ->
  os_connect os (os_socket os) addr (htons host port) = -1 ->
  jbod_connect host os ip port cli_sd = (false, os_socket os) /\
  snd (jbod_connect host os ip port cli_sd) <> -1.
Proof.
  intros Haddr Hsock Hconn.
  assert (jbod_connect host os ip port cli_sd = (false, os_socket os)) as Heq.
  { unfold jbod_connect. rewrite Haddr.
    replace (os_socket os =? -1) with false by (symmetry; apply Z.eqb_neq; assumption).
    rewrite Hconn. reflexivity. }
  split; [assumption |]. rewrite Heq. assumption.
Qed.

(** * The statements at sample inputs *)

(** C1 as written fails.  The opcode 0 has command field 0, which is not
    the WRITE_BLOCK value 5 used here; the transfer succeeds and five bytes
    have gone out, not the four bytes of the big-endian opcode. *)
Lemma send_packet_other_command_five_bytes :
  command_field 0 <> 5 /\
  send_packet LittleEndian 5 1 3 0 [] (repeat 0 261%nat) 0 quiet =
    Some (true, mkWorld [] [] [0; 0; 0; 0; 0] []) /\
  big_endian32 0 = [0; 0; 0; 0] /\
  [0; 0; 0; 0; 0] <> wire quiet ++ big_endian32 0.
Proof.
  split; [discriminate |]. split; [reflexivity |]. split; [reflexivity |].
  discriminate.
Qed.

(** The amended C1 at the same input. *)
Lemma send_packet_other_command_witness :
  command_field 0 <> 5 /\
  exists request,
    length request = 5%nat /\
    firstn 4 request = big_endian32 0 /\
    forall w w',
      send_packet LittleEndian 5 1 3 0 [] (repeat 0 261%nat) 0 w = Some (true, w') ->
      wire w' = wire w ++ request.
Proof.
  assert (command_field 0 <> 5) as H by (vm_compute; discriminate).
  split; [exact H |].
  destruct (send_packet_other_command LittleEndian 5 1 3 0 [] (repeat 0 261%nat) 0 H)
    as (request & Hlen & Hfirst & _ & Hwire).
  exists request. split; [exact Hlen |]. split; [exact Hfirst | exact Hwire].
Defined.

(** C5 at the opcode 0x5007 and a block of 0xAA bytes. *)
Lemma send_packet_write_block_witness :
  command_field 20487 = 5 /\
  length (repeat 170 256%nat) = 256%nat /\
  forall w w',
    send_packet LittleEndian 5 2 3 20487 (repeat 170 256%nat)
      (repeat 0 261%nat) 0 w = Some (true, w') ->
    wire w' = wire w ++ big_endian32 20487 ++ 2 :: repeat 170 256%nat.
Proof.
  split; [reflexivity |]. split; [reflexivity |].
  exact (proj2 (proj2
    (send_packet_write_block LittleEndian 5 2 3 20487 (repeat 170 256%nat)
       (repeat 0 261%nat) 0 eq_refl eq_refl))).
Defined.

(** C2 at a refused connection, starting unconnected. *)
Lemma jbod_connect_refused_witness :
  jbod_connect LittleEndian refused "127.0.0.1"%string 8080 (-1) = (false, 3) /\
  snd (jbod_connect LittleEndian refused "127.0.0.1"%string 8080 (-1)) <> -1.
Proof.
  apply (jbod_connect_refused_keeps_descriptor LittleEndian refused
           "127.0.0.1"%string 8080 (-1) 2130706433).
  - reflexivity.
  - cbn. lia.
  - reflexivity.
Defined.

(** C4 at a peer that sends two of the five bytes and closes. *)
Lemma nread_never_returns_after_close_witness :
  nread 1000 3 5 (repeat 0 5%nat) (replying [[1; 2]]) = None.
Proof.
  apply (nread_never_returns_after_close 1000 3 5 (repeat 0 5%nat)
           (replying [[1; 2]]) [[1; 2]]).
  - unfold INT_MAX. lia.
  - reflexivity.
  - cbn. lia.
Defined.

(** C6 at the status byte 3, with a block waiting behind the header. *)
Lemma recv_packet_error_bit_witness :
  exists out,
    recv_packet LittleEndian 2 3 0 0 (repeat 0 256%nat) (repeat 0 5%nat)
      (replying [[0; 0; 0; 0; 3]; repeat 170 256%nat]) =
      Some ((false, out), mkWorld [RdSeg (repeat 170 256%nat)] [] [] [5]) /\
    r_ret out = 3 /\
    pending (inbox (replying [[0; 0; 0; 0; 3]; repeat 170 256%nat])) =
      [0; 0; 0; 0; 3] ++ pending [RdSeg (repeat 170 256%nat)].
Proof.
  apply (recv_packet_error_bit LittleEndian 2 3 0 0 (repeat 0 256%nat)
           (repeat 0 5%nat) (replying [[0; 0; 0; 0; 3]; repeat 170 256%nat])
           [0; 0; 0; 0; 3] (mkWorld [RdSeg (repeat 170 256%nat)] [] [] [5])).
  - reflexivity.
  - reflexivity.
Defined.

(** C7 at the status byte 2 and a block of 0xAA bytes. *)
Lemma recv_packet_block_follows_witness :
  recv_packet LittleEndian 2 3 0 0 (repeat 0 256%nat) (repeat 0 5%nat)
    (replying [[0; 0; 80; 0; 2]; repeat 170 256%nat]) =
    Some ((true, mkResponse 5242880 2 (repeat 170 256%nat)),
          mkWorld [] [] [] [5; 256]).
Proof.
  rewrite (proj1
    (recv_packet_block_follows LittleEndian 2 3 0 0 (repeat 0 256%nat)
       (repeat 0 5%nat) (replying [[0; 0; 80; 0; 2]; repeat 170 256%nat])
       [0; 0; 80; 0; 2] (mkWorld [RdSeg (repeat 170 256%nat)] [] [] [5])
       eq_refl eq_refl eq_refl)).
  reflexivity.
Defined.

(** C10 at the status byte 0. *)
Lemma recv_packet_block_untouched_witness :
  exists out,
    recv_packet LittleEndian 2 3 0 0 (repeat 9 256%nat) (repeat 0 5%nat)
      (replying [[0; 0; 0; 0; 0]]) =
      Some ((true, out), mkWorld [] [] [] [5]) /\
    r_block out = repeat 9 256%nat.
Proof.
  apply (recv_packet_block_untouched LittleEndian 2 3 0 0 (repeat 9 256%nat)
           (repeat 0 5%nat) (replying [[0; 0; 0; 0; 0]])
           [0; 0; 0; 0; 0] (mkWorld [] [] [] [5])).
  - reflexivity.
  - reflexivity.
Defined.

(** C8 at five bytes split 2 + 3 in both directions. *)
Lemma nread_nwrite_partial_completions_witness :
  (exists w',
      nread 2 3 5 (repeat 0 5%nat)
        (mkWorld [RdSeg [1; 2]; RdSeg [3; 4; 5]] [WrAcc 2; WrAcc 3] [] []) =
        Some ((true, [1; 2; 3; 4; 5]), w') /\
      inbox w' = [] /\ length (rd_calls w') = 2%nat) /\
  (exists w',
      nwrite 2 3 5 [9; 8; 7; 6; 5]
        (mkWorld [RdSeg [1; 2]; RdSeg [3; 4; 5]] [WrAcc 2; WrAcc 3] [] []) =
        Some (true, w') /\
      wire w' = [9; 8; 7; 6; 5] /\
      Z.of_nat (length [9; 8; 7; 6; 5]) = 5 /\
      outbox w' = []).
Proof.
  apply (nread_nwrite_partial_completions 2 3 5
           (mkWorld [RdSeg [1; 2]; RdSeg [3; 4; 5]] [WrAcc 2; WrAcc 3] [] [])
           [[1; 2]; [3; 4; 5]] [2; 3]%positive [] [] (repeat 0 5%nat)
           [9; 8; 7; 6; 5]).
  - unfold INT_MAX. lia.
  - repeat constructor; discriminate.
  - reflexivity.
  - reflexivity.
  - reflexivity.
  - reflexivity.
  - cbn. lia.
  - cbn. lia.
  - cbn. lia.
Defined.

(** C9 at an error after two bytes in both directions. *)
Lemma nread_nwrite_error_witness :
  (exists buf' w',
      nread 3 3 5 (repeat 0 5%nat)
        (mkWorld [RdSeg [1; 2]; RdErr; RdSeg [3]] [WrAcc 2; WrErr; WrAcc 3] [] []) =
        Some ((false, buf'), w') /\
      inbox w' = [RdSeg [3]] /\ length (rd_calls w') = 2%nat) /\
  (exists w',
      nwrite 3 3 5 [9; 8; 7; 6; 5]
        (mkWorld [RdSeg [1; 2]; RdErr; RdSeg [3]] [WrAcc 2; WrErr; WrAcc 3] [] []) =
        Some (false, w') /\
      outbox w' = [WrAcc 3] /\
      wire w' = [9; 8]).
Proof.
  apply (nread_nwrite_error 3 3 5 5
           (mkWorld [RdSeg [1; 2]; RdErr; RdSeg [3]] [WrAcc 2; WrErr; WrAcc 3] [] [])
           [[1; 2]] [2]%positive [RdSeg [3]] [WrAcc 3] (repeat 0 5%nat)
           [9; 8; 7; 6; 5]).
  - unfold INT_MAX. lia.
  - unfold INT_MAX. lia.
  - cbn. lia.
  - cbn. lia.
  - reflexivity.
  - reflexivity.
  - cbn. lia.
  - cbn. lia.
Defined.

(** The whole exchange for a command without block: a request of command
    0, a reply with opcode 0 and status 0. *)
Example jbod_client_operation_no_block :
  jbod_client_operation LittleEndian 5 2 3 0 (repeat 9 256%nat) 0
    (repeat 0 261%nat) 0 (repeat 0 5%nat) (replying [[0; 0; 0; 0; 0]]) =
  Some ((0, repeat 9 256%nat), mkWorld [] [] [0; 0; 0; 0; 0] [5]).
Proof. reflexivity. Qed.

(** * Further facts about the transfer loops *)

Lemma pending_app (a b : list rd_event) :
  pending (a ++ b) = pending a ++ pending b.
Proof. unfold pending. apply flat_map_app. Qed.

Lemma pending_segments (segs : list (list Z)) :
  pending (map RdSeg segs) = concat segs.
Proof.
  induction segs as [| seg segs IH]; [reflexivity |].
  cbn [map concat]. change (pending (RdSeg seg :: map RdSeg segs))
    with (seg ++ pending (map RdSeg segs)).
  rewrite IH. reflexivity.
Qed.

(** Whatever [nread] returns: what it took from the stream lies in the
    buffer, in order; it asked each [read] for what was still missing; it
    wrote nothing. *)
Lemma nread_loop_any (fd len : Z) :
  len <= INT_MAX ->
  forall (fuel : nat) (r_byte : Z) (buf : list Z) (w : world)
         (ok : bool) (buf' : list Z) (w' : world),
    0 <= r_byte <= len ->
    (Z.to_nat r_byte <= length buf)%nat ->
    nread_loop fuel fd len r_byte buf w = Some ((ok, buf'), w') ->
    exists data calls,
      (if ok then Z.of_nat (length data) = len - r_byte
       else Z.of_nat (length data) < len - r_byte) /\
      buf' = blit buf (Z.to_nat r_byte) data /\
      pending (inbox w) = data ++ pending (inbox w') /\
      outbox w' = outbox w /\ wire w' = wire w /\
      rd_calls w' = rd_calls w ++ calls /\
      Forall (fun c => 0 < c <= len - r_byte) calls.
Proof.
  intros Hmax fuel. induction fuel as [| fuel IH];
    intros r_byte buf w ok buf' w' Hr Hbuf Hrun;
    rewrite nread_loop_eq in Hrun;
    destruct (Z.ltb_spec r_byte len) as [Hlt | Hge];
    try discriminate Hrun;
    try (injection Hrun as <- <- <-; exists [], []; rewrite blit_nil, app_nil_r;
         repeat split; try constructor; cbn [length]; lia).
  unfold bind, sys_read in Hrun.
  rewrite (wrap_int_small (len - r_byte)) in Hrun by (unfold INT_MAX in *; lia).
  destruct (inbox w) as [| [seg |] tl] eqn:Hin.
  - change (0 =? -1) with false in Hrun. cbv iota beta in Hrun.
    rewrite Z.add_0_r, (wrap_int_small r_byte) in Hrun
      by (unfold INT_MAX in *; lia).
    destruct (IH _ _ _ _ _ _ Hr Hbuf Hrun)
      as (data & calls & Hlen & Hb & Hp & Ho & Hw & Hc & Hall).
    exists data, ((len - r_byte) :: calls). cbn [inbox outbox wire rd_calls] in *.
    repeat split; try assumption.
    + rewrite Hc, <- app_assoc. reflexivity.
    + constructor; [lia | assumption].
  - set (k := Nat.min (Z.to_nat (len - r_byte)) (length seg)) in *.
    assert (k <= length seg)%nat as Hk by (subst k; lia).
    assert (Z.of_nat k <= len - r_byte) as Hk' by (subst k; lia).
    clearbody k. cbv iota beta in Hrun.
    replace (Z.of_nat k =? -1) with false in Hrun
      by (symmetry; apply Z.eqb_neq; lia).
    rewrite wrap_int_small in Hrun by (unfold INT_MAX in *; lia).
    apply IH in Hrun; [| lia |].
    + destruct Hrun as (data & calls & Hlen & Hb & Hp & Ho & Hw & Hc & Hall).
      exists (firstn k seg ++ data), ((len - r_byte) :: calls).
      cbn [inbox outbox wire rd_calls] in *.
      assert (length (firstn k seg) = k) as Hfk by (rewrite length_firstn; lia).
      repeat split; try assumption.
      * rewrite length_app, Hfk. destruct ok; lia.
      * rewrite Hb.
        replace (Z.to_nat (r_byte + Z.of_nat k))
          with (Z.to_nat r_byte + length (firstn k seg))%nat by lia.
        apply blit_blit. assumption.
      * cbn [pending flat_map]. fold (pending tl). rewrite <- app_assoc, <- Hp.
        destruct (Nat.ltb_spec k (length seg)) as [Hlt' | Hge'].
        -- cbn [pending flat_map]. fold (pending tl).
           rewrite app_assoc, firstn_skipn. reflexivity.
        -- rewrite firstn_all2 by lia. reflexivity.
      * rewrite Hc, <- app_assoc. reflexivity.
      * constructor; [lia |].
        eapply Forall_impl; [| exact Hall]. cbv beta. intros c Hcb. lia.
    + unfold blit. rewrite !length_app, !length_firstn. lia.
  - change (-1 =? -1) with true in Hrun. cbv iota in Hrun.
    injection Hrun as <- <- <-. exists [], [len - r_byte].
    rewrite blit_nil. cbn [inbox outbox wire rd_calls length app].
    repeat split; try lia. constructor; [lia | constructor].
Qed.

(** Whatever [nwrite] returns: the wire has gained the next bytes of the
    buffer, in order; it read nothing. *)
Lemma nwrite_loop_any (fd len : Z) (buf : list Z) :
  len <= INT_MAX ->
  forall (fuel : nat) (w_byte : Z) (w : world) (ok : bool) (w' : world),
    0 <= w_byte <= len ->
    nwrite_loop fuel fd len w_byte buf w = Some (ok, w') ->
    exists k : nat,
      (if ok then Z.of_nat k = len - w_byte else Z.of_nat k < len - w_byte) /\
      wire w' = wire w ++ firstn k (skipn (Z.to_nat w_byte) buf) /\
      inbox w' = inbox w /\ rd_calls w' = rd_calls w.
Proof.
  intros Hmax fuel. induction fuel as [| fuel IH];
    intros w_byte w ok w' Hw Hrun;
    rewrite nwrite_loop_eq in Hrun;
    destruct (Z.ltb_spec w_byte len) as [Hlt | Hge];
    try discriminate Hrun;
    try (injection Hrun as <- <-; exists 0%nat; cbn [firstn];
         rewrite app_nil_r; repeat split; lia).
  unfold bind, sys_write in Hrun.
  rewrite (wrap_int_small (len - w_byte)) in Hrun by (unfold INT_MAX in *; lia).
  assert (forall (k : nat) (w1 : world),
            Z.of_nat k <= len - w_byte ->
            wire w1 = wire w ++ firstn k (skipn (Z.to_nat w_byte) buf) ->
            inbox w1 = inbox w -> rd_calls w1 = rd_calls w ->
            nwrite_loop fuel fd len (w_byte + Z.of_nat k) buf w1 = Some (ok, w') ->
            exists k0 : nat,
              (if ok then Z.of_nat k0 = len - w_byte
               else Z.of_nat k0 < len - w_byte) /\
              wire w' = wire w ++ firstn k0 (skipn (Z.to_nat w_byte) buf) /\
              inbox w' = inbox w /\ rd_calls w' = rd_calls w) as Hstep.
  { intros k w1 Hk Hw1 Hi1 Hc1 Hrun1.
    apply IH in Hrun1; [| lia].
    destruct Hrun1 as (k2 & Hk2 & Hwire & Hi & Hc).
    exists (k + k2)%nat. repeat split.
    - destruct ok; lia.
    - rewrite Hwire, Hw1, <- app_assoc. f_equal.
      rewrite firstn_add, skipn_skipn.
      replace (Z.to_nat (w_byte + Z.of_nat k))
        with (k + Z.to_nat w_byte)%nat by lia.
      reflexivity.
    - congruence.
    - congruence. }
  destruct (outbox w) as [| [n |] tl] eqn:Hout.
  - replace (Z.of_nat (Z.to_nat (len - w_byte)) =? -1) with false in Hrun
      by (symmetry; apply Z.eqb_neq; lia).
    rewrite wrap_int_small in Hrun by (unfold INT_MAX in *; lia).
    assert (Z.of_nat (Z.to_nat (len - w_byte)) <= len - w_byte) as Hk by lia.
    refine (Hstep _ _ Hk _ _ _ Hrun); reflexivity.
  - set (k := Nat.min (Z.to_nat (len - w_byte)) (Pos.to_nat n)) in *.
    assert (Z.of_nat k <= len - w_byte) as Hk by (subst k; lia).
    clearbody k.
    replace (Z.of_nat k =? -1) with false in Hrun
      by (symmetry; apply Z.eqb_neq; lia).
    rewrite wrap_int_small in Hrun by (unfold INT_MAX in *; lia).
    refine (Hstep _ _ Hk _ _ _ Hrun); reflexivity.
  - change (-1 =? -1) with true in Hrun. cbv iota in Hrun.
    injection Hrun as <- <-. exists 0%nat. cbn [firstn wire inbox rd_calls].
    rewrite app_nil_r. repeat split. lia.
Qed.

(** X1.  Whatever [nread] returns, the bytes it took from the stream are
    at the front of the buffer, in the order they came, and the rest of the
    buffer is as before; they are [len] bytes when it returns true and
    fewer when it returns false.  Nothing else was taken from the stream,
    and nothing was written. *)
Theorem nread_result
    (fuel : nat) (fd len : Z) (buf : list Z) (w : world)
    (ok : bool) (buf' : list Z) (w' : world) :
  0 <= len <= INT_MAX ->
  nread fuel fd len buf w = Some ((ok, buf'), w') ->
  exists data,
    (if ok then length data = Z.to_nat len
     else (length data < Z.to_nat len)%nat) /\
    buf' = data ++ skipn (length data) buf /\
    pending (inbox w) = data ++ pending (inbox w') /\
    outbox w' = outbox w /\ wire w' = wire w.
Proof.
  intros Hlen Hrun. unfold nread in Hrun.
  apply nread_loop_any in Hrun; [| lia | lia | change (Z.to_nat 0) with 0%nat; lia].
  destruct Hrun as (data & calls & Hd & Hb & Hp & Ho & Hw & _).
  exists data. repeat split; try assumption.
  destruct ok; lia.
Qed.

(** X2.  [nread] stays inside the [len] bytes it was given: the buffer
    keeps its length and every byte from index [len] on, and each [read]
    asks for at least 1 and at most [len] bytes. *)
Theorem nread_frame
    (fuel : nat) (fd len : Z) (buf : list Z) (w : world)
    (ok : bool) (buf' : list Z) (w' : world) :
  0 <= len <= INT_MAX ->
  len <= Z.of_nat (length buf) ->
  nread fuel fd len buf w = Some ((ok, buf'), w') ->
  length buf' = length buf /\
  skipn (Z.to_nat len) buf' = skipn (Z.to_nat len) buf /\
  exists calls,
    rd_calls w' = rd_calls w ++ calls /\
    Forall (fun c => 0 < c <= len) calls.
Proof.
  intros Hlen Hbuf Hrun. unfold nread in Hrun.
  apply nread_loop_any in Hrun; [| lia | lia | change (Z.to_nat 0) with 0%nat; lia].
  destruct Hrun as (data & calls & Hd & Hb & _ & _ & _ & Hc & Hall).
  assert (length data <= Z.to_nat len)%nat as Hdl by (destruct ok; lia).
  change (Z.to_nat 0) with 0%nat in Hb. unfold blit in Hb.
  cbn [firstn app Nat.add] in Hb. subst buf'. repeat split.
  - rewrite length_app, length_skipn. lia.
  - rewrite skipn_app, skipn_skipn, (skipn_all2 data) by lia. cbn [app].
    f_equal. lia.
  - exists calls. split; [assumption |].
    eapply Forall_impl; [| exact Hall]. cbv beta. intros c Hcb. lia.
Qed.

(** X3.  Whatever [nwrite] returns, the wire has gained a prefix of the
    buffer and nothing else: the first [len] bytes when it returns true,
    fewer when it returns false.  Nothing was read. *)
Theorem nwrite_result
    (fuel : nat) (fd len : Z) (buf : list Z) (w : world)
    (ok : bool) (w' : world) :
  0 <= len <= INT_MAX ->
  nwrite fuel fd len buf w = Some (ok, w') ->
  exists k : nat,
    (if ok then k = Z.to_nat len else (k < Z.to_nat len)%nat) /\
    wire w' = wire w ++ firstn k buf /\
    inbox w' = inbox w /\ rd_calls w' = rd_calls w.
Proof.
  intros Hlen Hrun. unfold nwrite in Hrun.
  apply nwrite_loop_any in Hrun; [| lia | lia].
  destruct Hrun as (k & Hk & Hwire & Hi & Hc).
  exists k. repeat split; try assumption.
  destruct ok; lia.
Qed.

(** X4.  With a length of zero or less both loops return true at once:
    no system call is made, whatever the fuel, and the buffer and the
    socket are as before. *)
Theorem nread_nwrite_nothing_to_do
    (fuel : nat) (fd len : Z) (buf : list Z) (w : world) :
  len <= 0 ->
  nread fuel fd len buf w = Some ((true, buf), w) /\
  nwrite fuel fd len buf w = Some (true, w).
Proof.
  intros Hlen. unfold nread, nwrite.
  rewrite nread_loop_eq, nwrite_loop_eq.
  replace (0 <? len) with false by (symmetry; apply Z.ltb_ge; lia).
  split; reflexivity.
Qed.

Lemma app_split_at (A : Type) (l1 l2 d p : list A) :
  l1 ++ l2 = d ++ p ->
  (length d <= length l1)%nat ->
  d = firstn (length d) l1 /\ p = skipn (length d) l1 ++ l2.
Proof.
  intros Heq Hlen. split.
  - apply (f_equal (firstn (length d))) in Heq.
    rewrite !firstn_app, !firstn_all, Nat.sub_diag in Heq. cbn [firstn] in Heq.
    replace (length d - length l1)%nat with 0%nat in Heq by lia.
    cbn [firstn] in Heq. rewrite !app_nil_r in Heq. symmetry. exact Heq.
  - apply (f_equal (skipn (length d))) in Heq.
    rewrite !skipn_app, skipn_all, Nat.sub_diag in Heq.
    replace (length d - length l1)%nat with 0%nat in Heq by lia.
    cbn [skipn app] in Heq. symmetry. exact Heq.
Qed.

(** Enough bytes before any failure: the loop comes to an end, and what
    it leaves of the script is again a run of non-empty segments. *)
Lemma nread_loop_enough (fd len : Z) (rest : list rd_event) :
  len <= INT_MAX ->
  forall (segs : list (list Z)) (fuel : nat) (r_byte : Z) (buf : list Z)
         (w : world),
    0 <= r_byte <= len ->
    len <= r_byte + Z.of_nat (length (concat segs)) ->
    Forall (fun s => s <> []) segs ->
    inbox w = map RdSeg segs ++ rest ->
    (length segs <= fuel)%nat ->
    exists buf' w' segs',
      nread_loop fuel fd len r_byte buf w = Some ((true, buf'), w') /\
      inbox w' = map RdSeg segs' ++ rest /\
      Forall (fun s => s <> []) segs' /\
      (length segs' <= length segs)%nat.
Proof.
  intros Hmax segs. induction segs as [| seg segs IH];
    intros fuel r_byte buf w Hr Hsum Hne Hin Hfuel;
    (destruct (Z.ltb_spec r_byte len) as [Hlt | Hge];
     [| rewrite nread_loop_eq;
        replace (r_byte <? len) with false by (symmetry; apply Z.ltb_ge; lia);
        eexists buf, w, _; repeat split; [exact Hin | exact Hne | lia] ]).
  - cbn [concat length] in Hsum. lia.
  - apply Forall_cons_iff in Hne. destruct Hne as [Hseg Hne'].
    cbn [concat] in Hsum. rewrite length_app in Hsum.
    destruct fuel as [| fuel]; [cbn in Hfuel; lia |].
    cbn [length] in Hfuel. cbn [map app] in Hin.
    destruct (Z_le_gt_dec (r_byte + Z.of_nat (length seg)) len) as [Hfit | Hover].
    + rewrite (nread_loop_segment fuel fd len r_byte buf w seg
                 (map RdSeg segs ++ rest)) by (assumption || lia).
      destruct (IH fuel (r_byte + Z.of_nat (length seg))
                  (blit buf (Z.to_nat r_byte) seg)
                  (mkWorld (map RdSeg segs ++ rest) (outbox w) (wire w)
                     (rd_calls w ++ [len - r_byte])))
        as (buf' & w' & segs' & Hrun & Hin' & Hne'' & Hlen');
        try assumption; try lia; try reflexivity.
      exists buf', w', segs'. repeat split; try assumption. cbn [length]. lia.
    + rewrite nread_loop_eq.
      replace (r_byte <? len) with true by (symmetry; apply Z.ltb_lt; lia).
      unfold bind, sys_read. rewrite Hin.
      rewrite (wrap_int_small (len - r_byte)) by (unfold INT_MAX in *; lia).
      rewrite Nat.min_l by lia. rewrite Z2Nat.id by lia.
      replace ((Z.to_nat (len - r_byte) <? length seg)%nat) with true
        by (symmetry; apply Nat.ltb_lt; lia).
      replace (len - r_byte =? -1) with false by (symmetry; apply Z.eqb_neq; lia).
      replace (r_byte + (len - r_byte)) with len by lia.
      rewrite wrap_int_small by (unfold INT_MAX in *; lia).
      rewrite nread_loop_eq, Z.ltb_irrefl.
      eexists _, _, (skipn (Z.to_nat (len - r_byte)) seg :: segs).
      repeat split.
      * constructor; [| assumption]. intros Hnil.
        apply (f_equal (@length Z)) in Hnil. rewrite length_skipn in Hnil.
        cbn [length] in Hnil. lia.
      * cbn [length]. lia.
Qed.

(** X5.  When the segments that arrive before any failure hold at least
    [len] bytes, however they are cut, [nread] returns true with the first
    [len] of them in the buffer, and leaves the bytes after them in the
    stream. *)
Theorem nread_enough_bytes
    (fuel : nat) (fd len : Z) (buf : list Z) (w : world)
    (segs : list (list Z)) (rest : list rd_event) :
  0 <= len <= INT_MAX ->
  Forall (fun s => s <> []) segs ->
  inbox w = map RdSeg segs ++ rest ->
  len <= Z.of_nat (length (concat segs)) ->
  (length segs <= fuel)%nat ->
  exists w',
    nread fuel fd len buf w =
      Some ((true, firstn (Z.to_nat len) (concat segs) ++ skipn (Z.to_nat len) buf),
            w') /\
    pending (inbox w') = skipn (Z.to_nat len) (concat segs) ++ pending rest.
Proof.
  intros Hlen Hne Hin Hsum Hfuel.
  destruct (nread_loop_enough fd len rest (proj2 Hlen) segs fuel 0 buf w)
    as (buf' & w' & segs' & Hrun & _); try assumption; try lia.
  pose proof Hrun as Hspec.
  apply nread_loop_true in Hspec; [| lia | lia | change (Z.to_nat 0) with 0%nat; lia].
  destruct Hspec as (data & Hd & Hb & Hp & _).
  rewrite Hin, pending_app, pending_segments in Hp.
  apply app_split_at in Hp; [| lia].
  destruct Hp as [Hdata Hrest].
  replace (length data) with (Z.to_nat len) in Hdata, Hrest by lia.
  exists w'. unfold nread. rewrite Hrun. split; [| exact Hrest].
  rewrite Hb. change (Z.to_nat 0) with 0%nat. unfold blit.
  cbn [firstn app Nat.add]. rewrite <- Hdata.
  replace (length data) with (Z.to_nat len) by lia. reflexivity.
Qed.

(** Every [write] that does not fail takes at least one byte. *)
Lemma nwrite_loop_progress (fd len : Z) (buf : list Z) :
  len <= INT_MAX ->
  forall (fuel : nat) (w_byte : Z) (w : world),
    0 <= w_byte <= len ->
    (Z.to_nat (len - w_byte) <= fuel)%nat ->
    Forall (fun e => e <> WrErr) (outbox w) ->
    exists w', nwrite_loop fuel fd len w_byte buf w = Some (true, w').
Proof.
  intros Hmax fuel. induction fuel as [| fuel IH];
    intros w_byte w Hw Hfuel Hok; rewrite nwrite_loop_eq;
    (destruct (Z.ltb_spec w_byte len) as [Hlt | Hge];
     [| eexists; reflexivity]); [lia |].
  unfold bind, sys_write.
  rewrite (wrap_int_small (len - w_byte)) by (unfold INT_MAX in *; lia).
  destruct (outbox w) as [| [n |] tl] eqn:Hout.
  - rewrite Z2Nat.id by lia.
    replace (len - w_byte =? -1) with false by (symmetry; apply Z.eqb_neq; lia).
    replace (w_byte + (len - w_byte)) with len by lia.
    rewrite wrap_int_small by (unfold INT_MAX in *; lia).
    rewrite nwrite_loop_eq, Z.ltb_irrefl. eexists. reflexivity.
  - set (k := Nat.min (Z.to_nat (len - w_byte)) (Pos.to_nat n)) in *.
    assert (1 <= Z.of_nat k <= len - w_byte) as Hk by (subst k; lia).
    clearbody k.
    replace (Z.of_nat k =? -1) with false by (symmetry; apply Z.eqb_neq; lia).
    rewrite wrap_int_small by (unfold INT_MAX in *; lia).
    apply IH; [lia | lia |]. cbn [outbox].
    apply Forall_cons_iff in Hok. apply Hok.
  - apply Forall_cons_iff in Hok. destruct Hok as [Hbad _]. congruence.
Qed.

(** X6.  When no [write] fails, [nwrite] comes to an end within [len]
    iterations and returns true, with the first [len] bytes of the buffer
    put on the wire: a [write] that does not fail takes at least one
    byte. *)
Theorem nwrite_succeeds_without_error
    (fuel : nat) (fd len : Z) (buf : list Z) (w : world) :
  0 <= len <= INT_MAX ->
  Forall (fun e => e <> WrErr) (outbox w) ->
  (Z.to_nat len <= fuel)%nat ->
  exists w',
    nwrite fuel fd len buf w = Some (true, w') /\
    wire w' = wire w ++ firstn (Z.to_nat len) buf.
Proof.
  intros Hlen Hok Hfuel.
  destruct (nwrite_loop_progress fd len buf (proj2 Hlen) fuel 0 w)
    as (w' & Hrun); try assumption; try lia.
  exists w'. unfold nwrite. split; [exact Hrun |].
  apply nwrite_loop_true in Hrun; [| lia | lia].
  destruct Hrun as [Hwire _]. rewrite Hwire.
  change (Z.to_nat 0) with 0%nat. cbn [skipn]. rewrite Z.sub_0_r. reflexivity.
Qed.

(** * Further facts about the packets *)

(** What a decode that returns true has taken from the stream. *)
Lemma recv_packet_true_inv
    (host : endianness) (fuel : nat) (sd op ret : Z)
    (block packet : list Z) (w : world) (out : response) (w' : world) :
  recv_packet host fuel sd op ret block packet w = Some ((true, out), w') ->
  exists hdr,
    length hdr = 5%nat /\
    r_op out = u32_of_mem host (firstn 4 hdr) /\
    r_ret out = nth 4 hdr 0 /\
    Z.testbit (r_ret out) 0 = false /\
    if Z.testbit (r_ret out) 1 then
      exists data,
        length data = 256%nat /\
        r_block out = data ++ skipn 256 block /\
        pending (inbox w) = hdr ++ data ++ pending (inbox w')
    else
      r_block out = block /\
      pending (inbox w) = hdr ++ pending (inbox w').
Proof.
  intros Hrun.
  destruct (nread fuel sd HEADER_LEN packet w) as [[[okh pkt] w1] |] eqn:Hh;
    [| unfold recv_packet, bind in Hrun; rewrite Hh in Hrun; discriminate Hrun].
  destruct okh;
    [| unfold recv_packet, bind, pure in Hrun; rewrite Hh in Hrun;
       discriminate Hrun].
  rewrite (recv_packet_after_header host fuel sd op ret block packet w pkt w1 Hh)
    in Hrun.
  cbv zeta in Hrun.
  destruct (header_bytes fuel sd packet w pkt w1 Hh) as [Hl Hp].
  assert (firstn 4 (firstn 5 pkt) = firstn 4 pkt) as H4
    by (rewrite firstn_firstn; reflexivity).
  assert (nth 4 (firstn 5 pkt) 0 = nth 4 pkt 0) as Hst
    by (rewrite nth_firstn; reflexivity).
  exists (firstn 5 pkt). rewrite H4, Hst.
  destruct (Z.testbit (nth 4 pkt 0) 0) eqn:E0; [discriminate Hrun |].
  destruct (Z.testbit (nth 4 pkt 0) 1) eqn:E1.
  - destruct (nread fuel sd JBOD_BLOCK_SIZE block w1)
      as [[[okb block'] w2] |] eqn:Hb; [| discriminate Hrun].
    injection Hrun as -> <- <-. cbn [r_op r_ret r_block]. rewrite E0, E1.
    unfold nread, JBOD_BLOCK_SIZE in Hb.
    apply nread_loop_true in Hb;
      [| unfold INT_MAX; lia | lia | change (Z.to_nat 0) with 0%nat; lia ].
    destruct Hb as (data & Hlen & Hbuf & Hpb & _).
    assert (length data = 256%nat) as Hd by lia.
    repeat split; try assumption. exists data. repeat split; try assumption.
    + rewrite Hbuf. change (Z.to_nat 0) with 0%nat. unfold blit.
      cbn [firstn app Nat.add]. rewrite Hd. reflexivity.
    + rewrite Hp, Hpb. reflexivity.
  - injection Hrun as <- <-. cbn [r_op r_ret r_block]. rewrite E0, E1.
    repeat split; assumption.
Qed.

(** X7.  A decode that returns true has taken from the stream exactly the
    5 bytes of a header whose status has bit 0 clear and, when bit 1 is
    set, the 256 bytes after it, which are then the first 256 bytes of the
    caller's block; with bit 1 clear the block is untouched.  The bytes
    after that stay in the stream for the next exchange. *)
Theorem recv_packet_success_framing
    (host : endianness) (fuel : nat) (sd op ret : Z)
    (block packet : list Z) (w : world) (out : response) (w' : world) :
  recv_packet host fuel sd op ret block packet w = Some ((true, out), w') ->
  exists hdr,
    length hdr = 5%nat /\
    r_op out = u32_of_mem host (firstn 4 hdr) /\
    r_ret out = nth 4 hdr 0 /\
    Z.testbit (r_ret out) 0 = false /\
    if Z.testbit (r_ret out) 1 then
      exists data,
        length data = 256%nat /\
        r_block out = data ++ skipn 256 block /\
        pending (inbox w) = hdr ++ data ++ pending (inbox w')
    else
      r_block out = block /\
      pending (inbox w) = hdr ++ pending (inbox w').
Proof. apply recv_packet_true_inv. Qed.

(** X8.  When a [read] fails before the 5 bytes of the header have come,
    [recv_packet] returns false with the opcode, the status and the block
    as they were on entry, and issues no [read] after the failed one. *)
Theorem recv_packet_header_error
    (host : endianness) (fuel : nat) (sd op ret : Z)
    (block packet : list Z) (w : world)
    (segs : list (list Z)) (rest : list rd_event) :
  inbox w = map RdSeg segs ++ RdErr :: rest ->
  (length (concat segs) < 5)%nat ->
  (length segs < fuel)%nat ->
  exists w',
    recv_packet host fuel sd op ret block packet w =
      Some ((false, mkResponse op ret block), w') /\
    inbox w' = rest /\
    length (rd_calls w') = (length (rd_calls w) + length segs + 1)%nat.
Proof.
  intros Hin Hshort Hfuel.
  destruct (nread_loop_error sd HEADER_LEN rest ltac:(unfold INT_MAX, HEADER_LEN; lia)
              segs fuel 0 packet w)
    as (calls & Hcalls & Hrun);
    try assumption; try (unfold HEADER_LEN; lia).
  eexists. unfold recv_packet, bind, nread. rewrite Hrun. cbn [negb].
  split; [reflexivity |]. split; [reflexivity |].
  cbn [rd_calls]. rewrite length_app. lia.
Qed.

(** The decoder only reads. *)
Lemma recv_packet_any
    (host : endianness) (fuel : nat) (sd op ret : Z)
    (block packet : list Z) (w : world) (res : bool * response) (w' : world) :
  recv_packet host fuel sd op ret block packet w = Some (res, w') ->
  wire w' = wire w /\ outbox w' = outbox w /\
  exists taken,
    (length taken <= 261)%nat /\
    pending (inbox w) = taken ++ pending (inbox w').
Proof.
  intros Hrun. unfold recv_packet, bind in Hrun.
  destruct (nread fuel sd HEADER_LEN packet w) as [[[okh pkt] w1] |] eqn:Hh;
    [| discriminate Hrun].
  unfold nread in Hh.
  apply nread_loop_any in Hh;
    [| unfold INT_MAX, HEADER_LEN; lia | unfold HEADER_LEN; lia
     | change (Z.to_nat 0) with 0%nat; lia ].
  destruct Hh as (d1 & c1 & Hd1 & _ & Hp1 & Ho1 & Hw1 & _).
  assert (length d1 <= 5)%nat as Hl1 by (unfold HEADER_LEN in Hd1; destruct okh; lia).
  assert (forall r, pure (A := bool * response) r w1 = Some (res, w') ->
            wire w' = wire w /\ outbox w' = outbox w /\
            exists taken,
              (length taken <= 261)%nat /\
              pending (inbox w) = taken ++ pending (inbox w')) as Hdone.
  { intros r Hr. unfold pure in Hr. injection Hr as _ <-.
    repeat split; try assumption. exists d1. split; [lia | assumption]. }
  destruct okh; cbn [negb] in Hrun; [| apply (Hdone _ Hrun)].
  destruct (negb (Z.land (nth 4 pkt 0) 1 =? 0)); [apply (Hdone _ Hrun) |].
  destruct (negb (Z.land (nth 4 pkt 0) 2 =? 0)); [| apply (Hdone _ Hrun)].
  destruct (nread fuel sd JBOD_BLOCK_SIZE block w1) as [[[okb block'] w2] |] eqn:Hb;
    [| discriminate Hrun].
  unfold nread, JBOD_BLOCK_SIZE in Hb.
  apply nread_loop_any in Hb;
    [| unfold INT_MAX; lia | lia | change (Z.to_nat 0) with 0%nat; lia ].
  destruct Hb as (d2 & c2 & Hd2 & _ & Hp2 & Ho2 & Hw2 & _).
  assert (length d2 <= 256)%nat as Hl2 by (destruct okb; lia).
  assert (w' = w2) as -> by (destruct okb; cbn [negb] in Hrun; unfold pure in Hrun;
                             injection Hrun as _ <-; reflexivity).
  repeat split; try congruence.
  exists (d1 ++ d2). split; [rewrite length_app; lia |].
  rewrite Hp1, Hp2, app_assoc. reflexivity.
Qed.

(** X9.  Whatever [recv_packet] returns, it has written nothing, and it has
    taken at most 5 + 256 bytes from the stream. *)
Theorem recv_packet_never_writes
    (host : endianness) (fuel : nat) (sd op ret : Z)
    (block packet : list Z) (w : world) (res : bool * response) (w' : world) :
  recv_packet host fuel sd op ret block packet w = Some (res, w') ->
  wire w' = wire w /\ outbox w' = outbox w /\
  exists taken,
    (length taken <= 261)%nat /\
    pending (inbox w) = taken ++ pending (inbox w').
Proof. apply recv_packet_any. Qed.

(** The buffer that the WRITE_BLOCK branch hands to [nwrite]. *)
Lemma send_packet_write_buffer
    (host : endianness) (JBOD_WRITE_BLOCK : Z) (fuel : nat) (sd op : Z)
    (block packet : list Z) (past_t_op : Z) :
  command_field op = JBOD_WRITE_BLOCK ->
  length block = 256%nat ->
  send_packet host JBOD_WRITE_BLOCK fuel sd op block packet past_t_op =
  nwrite fuel sd 261 ((big_endian32 op ++ 2 :: block) ++ skipn 261 packet).
Proof.
  intros Hcmd Hblock.
  unfold send_packet. rewrite command_field_code, Hcmd, Z.eqb_refl.
  rewrite mem_of_u32_htonl. unfold memcpy, HEADER_LEN.
  change (5 + 256) with 261. f_equal.
  change (Z.to_nat 0) with 0%nat. change (Z.to_nat 4) with 4%nat.
  change (Z.to_nat 1) with 1%nat. change (Z.to_nat 5) with 5%nat.
  change (Z.to_nat 256) with 256%nat.
  rewrite <- Hblock at 1. rewrite firstn_all.
  change (firstn 4 (big_endian32 op)) with (big_endian32 op).
  change (firstn 1 [2]) with [2].
  change (blit packet 0 (big_endian32 op))
    with (big_endian32 op ++ skipn 4 packet).
  change 4%nat with (length (big_endian32 op)) at 1.
  rewrite blit_app. rewrite app_assoc.
  change 5%nat with (length (big_endian32 op ++ [2])).
  rewrite blit_app. rewrite Hblock, !skipn_skipn.
  rewrite <- !app_assoc. reflexivity.
Qed.

(** The buffer that the branch of the other commands hands to [nwrite]. *)
Lemma send_packet_other_buffer
    (host : endianness) (JBOD_WRITE_BLOCK : Z) (fuel : nat) (sd op : Z)
    (block packet : list Z) (past_t_op : Z) :
  command_field op <> JBOD_WRITE_BLOCK ->
  send_packet host JBOD_WRITE_BLOCK fuel sd op block packet past_t_op =
  nwrite fuel sd 5 ((big_endian32 op ++ [past_t_op]) ++ skipn 5 packet).
Proof.
  intros Hcmd. unfold send_packet. rewrite command_field_code.
  replace (command_field op =? JBOD_WRITE_BLOCK) with false
    by (symmetry; apply Z.eqb_neq; assumption).
  rewrite mem_of_u32_htonl. reflexivity.
Qed.

(** X10.  The bytes that [send_packet] puts on the wire do not depend on
    the byte order of the host: on a little-endian and on a big-endian
    machine it is the same transfer of the same buffer. *)
Theorem send_packet_host_independent
    (JBOD_WRITE_BLOCK : Z) (fuel : nat) (sd op : Z)
    (block packet : list Z) (past_t_op : Z) :
  send_packet LittleEndian JBOD_WRITE_BLOCK fuel sd op block packet past_t_op =
  send_packet BigEndian JBOD_WRITE_BLOCK fuel sd op block packet past_t_op.
Proof.
  unfold send_packet. rewrite !mem_of_u32_htonl. reflexivity.
Qed.

(** X11.  Whatever [send_packet] returns, it has read nothing, and it has
    put at most 261 bytes on the wire for a WRITE_BLOCK opcode and at most
    5 for any other. *)
Theorem send_packet_never_reads
    (host : endianness) (JBOD_WRITE_BLOCK : Z) (fuel : nat) (sd op : Z)
    (block packet : list Z) (past_t_op : Z) (w : world) (ok : bool)
    (w' : world) :
  send_packet host JBOD_WRITE_BLOCK fuel sd op block packet past_t_op w =
    Some (ok, w') ->
  inbox w' = inbox w /\ rd_calls w' = rd_calls w /\
  exists sent,
    wire w' = wire w ++ sent /\
    (length sent <= if (command_field op =? JBOD_WRITE_BLOCK)%Z then 261 else 5)%nat.
Proof.
  intros Hrun. unfold send_packet in Hrun. rewrite command_field_code in Hrun.
  destruct (command_field op =? JBOD_WRITE_BLOCK);
    unfold nwrite, HEADER_LEN in Hrun;
    (apply nwrite_loop_any in Hrun; [| unfold INT_MAX; lia | lia]);
    destruct Hrun as (k & Hk & Hwire & Hi & Hc);
    (repeat split; try assumption);
    eexists; (split; [exact Hwire |]);
    rewrite length_firstn; destruct ok; lia.
Qed.

(** X12.  When the transfer of a WRITE_BLOCK request fails, what has gone
    on the wire is a proper prefix of the 261-byte request: the peer is
    left in the middle of a packet. *)
Theorem send_packet_write_block_failure
    (host : endianness) (JBOD_WRITE_BLOCK : Z) (fuel : nat) (sd op : Z)
    (block packet : list Z) (past_t_op : Z) (w w' : world) :
  command_field op = JBOD_WRITE_BLOCK ->
  length block = 256%nat ->
  send_packet host JBOD_WRITE_BLOCK fuel sd op block packet past_t_op w =
    Some (false, w') ->
  exists k : nat,
    (k < 261)%nat /\
    wire w' = wire w ++ firstn k (big_endian32 op ++ 2 :: block).
Proof.
  intros Hcmd Hblock Hrun.
  rewrite (send_packet_write_buffer host JBOD_WRITE_BLOCK fuel sd op block packet
             past_t_op Hcmd Hblock) in Hrun.
  unfold nwrite in Hrun.
  apply nwrite_loop_any in Hrun; [| unfold INT_MAX; lia | lia].
  destruct Hrun as (k & Hk & Hwire & _).
  assert (length (big_endian32 op ++ 2 :: block) = 261%nat) as Hlen
    by (rewrite length_app; cbn [length big_endian32]; lia).
  exists k. split; [lia |]. rewrite Hwire.
  change (Z.to_nat 0) with 0%nat. cbn [skipn].
  rewrite firstn_app, Hlen.
  replace (k - 261)%nat with 0%nat by lia.
  cbn [firstn]. rewrite app_nil_r. reflexivity.
Qed.

Ltac bit_prune :=
  repeat match goal with
    | |- context [(?a <=? ?b)] => destruct (Z.leb_spec a b); try lia
    | |- context [(?a <? ?b)] => destruct (Z.ltb_spec a b); try lia
    end;
  do 3 (cbn [andb orb];
        rewrite ?andb_false_r, ?andb_true_r, ?orb_false_r, ?orb_true_r);
  rewrite ?Z.shiftr_spec by lia;
  try reflexivity; try (f_equal; lia).

(** The four bytes of a big-endian field, read as a [uint32_t] of the
    host, are [htonl] of the value they encode. *)
Lemma u32_of_mem_big_endian32 (host : endianness) (x : Z) :
  0 <= x < 2 ^ 32 ->
  u32_of_mem host (big_endian32 x) = htonl host x.
Proof.
  intros Hx. unfold big_endian32. rewrite <- !byte_of_shift by lia.
  replace (x mod 256) with (Z.land x 255)
    by (change 255 with (Z.ones 8); rewrite Z.land_ones by lia; reflexivity).
  destruct host; cbn [u32_of_mem htonl firstn rev app]; unfold u32_le;
    cbn [nth]; apply Z.bits_inj'; intros n Hn.
  - unfold bswap_32.
    rewrite !Z.lor_spec, !Z.shiftl_spec by lia.
    rewrite !Z.land_spec, !testbit_255, !testbit_65280.
    rewrite (Z.shiftr_spec x 24 n), (Z.shiftr_spec x 8 n) by lia.
    bit_prune.
  - assert (32 <= n -> Z.testbit x n = false) as Hhigh.
    { intros Hbig. rewrite <- (Z.mod_small x (2 ^ 32)) by lia.
      apply Z.mod_pow2_bits_high. lia. }
    rewrite !Z.lor_spec, !Z.shiftl_spec by lia.
    rewrite !Z.land_spec, !testbit_255.
    destruct (Z.ltb_spec n 32) as [Hlow | Hbig].
    + bit_prune.
    + rewrite (Hhigh Hbig). bit_prune.
Qed.

(** X13.  The opcode that [recv_packet] stores is [htonl] of the value
    that the header carries in big-endian order: that value itself on a
    big-endian host, its byte swap on a little-endian one. *)
Theorem recv_packet_opcode_is_htonl
    (host : endianness) (fuel : nat) (sd op ret : Z)
    (block packet : list Z) (w : world) (pkt : list Z) (w1 : world)
    (x : Z) (ok : bool) (out : response) (w' : world) :
  nread fuel sd HEADER_LEN packet w = Some ((true, pkt), w1) ->
  firstn 4 pkt = big_endian32 x ->
  0 <= x < 2 ^ 32 ->
  recv_packet host fuel sd op ret block packet w = Some ((ok, out), w') ->
  r_op out = htonl host x.
Proof.
  intros Hh Hfield Hx Hrun.
  rewrite (recv_packet_after_header host fuel sd op ret block packet w pkt w1 Hh)
    in Hrun.
  cbv zeta in Hrun. rewrite Hfield, (u32_of_mem_big_endian32 host x Hx) in Hrun.
  destruct (Z.testbit (nth 4 pkt 0) 0).
  - injection Hrun as _ <- _. reflexivity.
  - destruct (Z.testbit (nth 4 pkt 0) 1).
    + destruct (nread fuel sd JBOD_BLOCK_SIZE block w1) as [[[okb block'] w2] |];
        [| discriminate Hrun].
      injection Hrun as _ <- _. reflexivity.
    + injection Hrun as _ <- _. reflexivity.
Qed.

(** * Further facts about the connection *)

(** X14.  When [jbod_connect] returns true, the address has parsed, the
    socket has been created, [connect] has not failed, and [cli_sd] holds
    the descriptor of that socket, which is not -1. *)
Theorem jbod_connect_success
    (host : endianness) (os : os_net) (ip : string) (port cli_sd sd' : Z) :
  jbod_connect host os ip port cli_sd = (true, sd') ->
  exists addr,
    os_inet_aton os ip = Some addr /\
    sd' = os_socket os /\
    sd' <> -1 /\
    os_connect os sd' addr (htons host port) <> -1.
Proof.
  unfold jbod_connect. intros Hrun.
  destruct (os_inet_aton os ip) as [addr |]; [| discriminate Hrun].
  destruct (Z.eqb_spec (os_socket os) (-1)) as [Hs | Hs]; [discriminate Hrun |].
  destruct (Z.eqb_spec (os_connect os (os_socket os) addr (htons host port)) (-1))
    as [Hc | Hc]; [discriminate Hrun |].
  injection Hrun as <-. exists addr. repeat split; assumption.
Qed.

(** X15.  Once the address has parsed, a [jbod_disconnect] that follows
    [jbod_connect] hands to [close] what [socket] returned and leaves
    [cli_sd] at -1, whether the connection was made or not: after a refused
    connection it closes the socket that was left open, and after a failed
    [socket] it closes -1. *)
Theorem jbod_disconnect_after_connect
    (host : endianness) (os : os_net) (ip : string) (port cli_sd addr : Z) :
  os_inet_aton os ip = Some addr ->
  jbod_disconnect (snd (jbod_connect host os ip port cli_sd)) =
    (os_socket os, -1).
Proof.
  intros Haddr. unfold jbod_connect, jbod_disconnect. rewrite Haddr.
  destruct (os_socket os =? -1); [reflexivity |].
  destruct (os_connect os (os_socket os) addr (htons host port) =? -1);
    reflexivity.
Qed.

(** * The whole exchange *)

Lemma concat_nil_nonempty (segs : list (list Z)) :
  Forall (fun s => s <> []) segs -> concat segs = [] -> segs = [].
Proof.
  intros Hne Hnil. destruct segs as [| seg segs]; [reflexivity |].
  apply Forall_cons_iff in Hne. destruct Hne as [Hseg _].
  cbn [concat] in Hnil. apply app_eq_nil in Hnil. tauto.
Qed.

(** [nread] of a prefix of what the next segments hold. *)
Lemma nread_prefix (fuel : nat) (fd len : Z) (buf : list Z) (w : world)
    (segs : list (list Z)) (rest : list rd_event) (d more : list Z) :
  len <= INT_MAX ->
  inbox w = map RdSeg segs ++ rest ->
  Forall (fun s => s <> []) segs ->
  concat segs = d ++ more ->
  Z.of_nat (length d) = len ->
  (length segs <= fuel)%nat ->
  exists w' segs',
    nread fuel fd len buf w = Some ((true, d ++ skipn (length d) buf), w') /\
    inbox w' = map RdSeg segs' ++ rest /\
    Forall (fun s => s <> []) segs' /\
    (length segs' <= length segs)%nat /\
    concat segs' = more /\
    outbox w' = outbox w /\ wire w' = wire w.
Proof.
  intros Hmax Hin Hne Hcat Hlen Hfuel.
  assert (length (concat segs) = (length d + length more)%nat) as Htot
    by (rewrite Hcat, length_app; reflexivity).
  destruct (nread_loop_enough fd len rest Hmax segs fuel 0 buf w)
    as (buf' & w' & segs' & Hrun & Hin' & Hne' & Hlen');
    try assumption; try lia.
  pose proof Hrun as Hspec.
  apply nread_loop_true in Hspec; [| lia | lia | change (Z.to_nat 0) with 0%nat; lia].
  destruct Hspec as (data & Hd & Hb & Hp & Ho & Hw).
  rewrite Hin, Hin', !pending_app, !pending_segments, Hcat, <- app_assoc in Hp.
  apply app_split_at in Hp; [| lia].
  destruct Hp as [Hdata Hrest].
  replace (length data) with (length d) in Hdata, Hrest by lia.
  rewrite firstn_all in Hdata. rewrite skipn_all in Hrest. cbn [app] in Hrest.
  apply app_inv_tail in Hrest.
  exists w', segs'. unfold nread. rewrite Hrun, Hb, Hdata.
  repeat split; assumption.
Qed.

(** The first half of an exchange that meets no failure: the request goes
    out whole and the header comes in. *)
Lemma exchange_header
    (host : endianness) (JBOD_WRITE_BLOCK : Z) (fuel : nat) (cli_sd op : Z)
    (block send_buf : list Z) (past_t_op : Z) (recv_buf : list Z) (w : world)
    (segs : list (list Z)) (rest : list rd_event)
    (hdr4 : list Z) (st : Z) (more : list Z) :
  Forall (fun e => e <> WrErr) (outbox w) ->
  inbox w = map RdSeg segs ++ rest ->
  Forall (fun s => s <> []) segs ->
  concat segs = hdr4 ++ st :: more ->
  length hdr4 = 4%nat ->
  (261 <= fuel)%nat ->
  (length segs <= fuel)%nat ->
  exists w1 w2 pkt segs2,
    send_packet host JBOD_WRITE_BLOCK fuel cli_sd op block send_buf past_t_op w =
      Some (true, w1) /\
    nread fuel cli_sd HEADER_LEN recv_buf w1 = Some ((true, pkt), w2) /\
    nth 4 pkt 0 = st /\
    inbox w2 = map RdSeg segs2 ++ rest /\
    Forall (fun s => s <> []) segs2 /\
    (length segs2 <= length segs)%nat /\
    concat segs2 = more.
Proof.
  intros Hok Hin Hne Hcat Hh4 Hfuel Hfs.
  assert (exists w1,
            send_packet host JBOD_WRITE_BLOCK fuel cli_sd op block send_buf
              past_t_op w = Some (true, w1) /\ inbox w1 = inbox w)
    as (w1 & Hsend & Hin1).
  { unfold send_packet. rewrite command_field_code.
    destruct (command_field op =? JBOD_WRITE_BLOCK);
      unfold nwrite, HEADER_LEN;
      match goal with
      | |- exists w1, nwrite_loop _ _ ?L _ ?b _ = _ /\ _ =>
          destruct (nwrite_loop_progress cli_sd L b
                      ltac:(unfold INT_MAX; lia) fuel 0 w)
            as (w1 & Hrun); [lia | lia | assumption |];
          exists w1; split; [exact Hrun |];
          apply nwrite_loop_true in Hrun; [tauto | unfold INT_MAX; lia | lia]
      end. }
  assert (concat segs = (hdr4 ++ [st]) ++ more) as Hcat'
    by (rewrite Hcat, <- app_assoc; reflexivity).
  destruct (nread_prefix fuel cli_sd HEADER_LEN recv_buf w1 segs rest
              (hdr4 ++ [st]) more)
    as (w2 & segs2 & Hrun & Hin2 & Hne2 & Hl2 & Hc2 & _);
    try assumption.
  - unfold INT_MAX, HEADER_LEN. lia.
  - rewrite Hin1. exact Hin.
  - rewrite length_app, Hh4. reflexivity.
  - exists w1, w2, ((hdr4 ++ [st]) ++ skipn (length (hdr4 ++ [st])) recv_buf), segs2.
    repeat split; try assumption.
    rewrite <- app_assoc, app_nth2 by lia. rewrite Hh4. reflexivity.
Qed.

(** X16.  An exchange that meets no failure: when no [write] fails and the
    peer answers, in segments cut anywhere, with a 4-byte opcode field, a
    status with bit 0 clear and, when bit 1 is set, 256 bytes,
    [jbod_client_operation] returns 0; the caller's block then holds these
    256 bytes, or is untouched when bit 1 is clear.  The opcode field of the
    reply plays no part, and the whole reply has left the stream. *)
Theorem jbod_client_operation_exchange
    (host : endianness) (JBOD_WRITE_BLOCK : Z) (fuel : nat) (cli_sd op : Z)
    (block : list Z) (ret : Z) (send_buf : list Z) (past_t_op : Z)
    (recv_buf : list Z) (w : world)
    (segs : list (list Z)) (rest : list rd_event)
    (hdr4 : list Z) (st : Z) (payload : list Z) :
  Forall (fun e => e <> WrErr) (outbox w) ->
  inbox w = map RdSeg segs ++ rest ->
  Forall (fun s => s <> []) segs ->
  concat segs = hdr4 ++ st :: payload ->
  length hdr4 = 4%nat ->
  Z.testbit st 0 = false ->
  length payload = (if Z.testbit st 1 then 256 else 0)%nat ->
  (261 <= fuel)%nat ->
  (length segs <= fuel)%nat ->
  exists w',
    jbod_client_operation host JBOD_WRITE_BLOCK fuel cli_sd op block ret
      send_buf past_t_op recv_buf w =
      Some ((0, payload ++ skipn (length payload) block), w') /\
    inbox w' = rest.
Proof.
  intros Hok Hin Hne Hcat Hh4 Hb0 Hpl Hfuel Hfs.
  destruct (exchange_header host JBOD_WRITE_BLOCK fuel cli_sd op block send_buf
              past_t_op recv_buf w segs rest hdr4 st payload)
    as (w1 & w2 & pkt & segs2 & Hsend & Hhdr & Hst & Hin2 & Hne2 & Hl2 & Hc2);
    try assumption.
  unfold jbod_client_operation, bind. rewrite Hsend. cbn [negb].
  rewrite (recv_packet_after_header host fuel cli_sd op ret block recv_buf w1
             pkt w2 Hhdr).
  cbv zeta. rewrite Hst, Hb0.
  destruct (Z.testbit st 1).
  - destruct (nread_prefix fuel cli_sd 256 block w2 segs2 rest payload [])
      as (w3 & segs3 & Hrun & Hin3 & Hne3 & _ & Hc3 & _);
      try assumption; try lia.
    + unfold INT_MAX. lia.
    + rewrite app_nil_r. exact Hc2.
    + unfold JBOD_BLOCK_SIZE. rewrite Hrun. cbn [negb r_block].
      exists w3. split; [reflexivity |].
      rewrite (concat_nil_nonempty segs3 Hne3 Hc3) in Hin3. exact Hin3.
  - cbn [negb r_block]. exists w2.
    assert (payload = []) as -> by (destruct payload; [reflexivity | discriminate Hpl]).
    split; [reflexivity |].
    rewrite (concat_nil_nonempty segs2 Hne2 Hc2) in Hin2. exact Hin2.
Qed.

(** X17.  A failure reported by the peer: when no [write] fails and the
    peer answers with a status whose bit 0 is set, [jbod_client_operation]
    returns -1 and the caller's block is untouched, although the whole
    request has gone out; whatever the peer sent after the 5-byte header
    stays in the stream. *)
Theorem jbod_client_operation_peer_failure
    (host : endianness) (JBOD_WRITE_BLOCK : Z) (fuel : nat) (cli_sd op : Z)
    (block : list Z) (ret : Z) (send_buf : list Z) (past_t_op : Z)
    (recv_buf : list Z) (w : world)
    (segs : list (list Z)) (rest : list rd_event)
    (hdr4 : list Z) (st : Z) (more : list Z) :
  Forall (fun e => e <> WrErr) (outbox w) ->
  inbox w = map RdSeg segs ++ rest ->
  Forall (fun s => s <> []) segs ->
  concat segs = hdr4 ++ st :: more ->
  length hdr4 = 4%nat ->
  Z.testbit st 0 = true ->
  (261 <= fuel)%nat ->
  (length segs <= fuel)%nat ->
  exists w',
    jbod_client_operation host JBOD_WRITE_BLOCK fuel cli_sd op block ret
      send_buf past_t_op recv_buf w = Some ((-1, block), w') /\
    pending (inbox w') = more ++ pending rest.
Proof.
  intros Hok Hin Hne Hcat Hh4 Hb0 Hfuel Hfs.
  destruct (exchange_header host JBOD_WRITE_BLOCK fuel cli_sd op block send_buf
              past_t_op recv_buf w segs rest hdr4 st more)
    as (w1 & w2 & pkt & segs2 & Hsend & Hhdr & Hst & Hin2 & Hne2 & Hl2 & Hc2);
    try assumption.
  unfold jbod_client_operation, bind. rewrite Hsend. cbn [negb].
  rewrite (recv_packet_after_header host fuel cli_sd op ret block recv_buf w1
             pkt w2 Hhdr).
  cbv zeta. rewrite Hst, Hb0. cbn [negb r_block].
  exists w2. split; [reflexivity |].
  rewrite Hin2, pending_app, pending_segments, Hc2. reflexivity.
Qed.

(** X18.  A failed send: when a [write] fails before the request has gone
    out whole, [jbod_client_operation] returns -1 without reading anything,
    and the caller's block is untouched. *)
Theorem jbod_client_operation_send_failure
    (host : endianness) (JBOD_WRITE_BLOCK : Z) (fuel : nat) (cli_sd op : Z)
    (block : list Z) (ret : Z) (send_buf : list Z) (past_t_op : Z)
    (recv_buf : list Z) (w : world)
    (accs : list positive) (rout : list wr_event) :
  outbox w = map WrAcc accs ++ WrErr :: rout ->
  accepted accs < (if command_field op =? JBOD_WRITE_BLOCK then 261 else 5) ->
  (length accs < fuel)%nat ->
  exists w',
    jbod_client_operation host JBOD_WRITE_BLOCK fuel cli_sd op block ret
      send_buf past_t_op recv_buf w = Some ((-1, block), w') /\
    inbox w' = inbox w /\ rd_calls w' = rd_calls w.
Proof.
  intros Hout Hacc Hfuel.
  unfold jbod_client_operation, bind, send_packet.
  rewrite command_field_code.
  destruct (command_field op =? JBOD_WRITE_BLOCK);
    unfold nwrite, HEADER_LEN;
    match goal with
    | |- context [nwrite_loop _ _ ?L _ ?b _] =>
        assert (L <= INT_MAX) as Hmax by (unfold INT_MAX; lia);
        rewrite (nwrite_loop_error cli_sd L b rout Hmax accs fuel 0 w)
          by (assumption || lia)
    end;
    cbn [negb]; eexists; repeat split.
Qed.

(** X19.  What a return of 0 means: the whole request has gone on the
    wire, 261 bytes for a WRITE_BLOCK opcode and 5 for any other, starting
    with the opcode in big-endian order; a 5-byte header with bit 0 of the
    status clear has come in; and the caller's block holds the 256 bytes
    that followed when bit 1 is set, and is untouched otherwise. *)
Theorem jbod_client_operation_success
    (host : endianness) (JBOD_WRITE_BLOCK : Z) (fuel : nat) (cli_sd op : Z)
    (block : list Z) (ret : Z) (send_buf : list Z) (past_t_op : Z)
    (recv_buf : list Z) (w : world) (block' : list Z) (w' : world) :
  (command_field op = JBOD_WRITE_BLOCK -> length block = 256%nat) ->
  jbod_client_operation host JBOD_WRITE_BLOCK fuel cli_sd op block ret
    send_buf past_t_op recv_buf w = Some ((0, block'), w') ->
  exists request hdr,
    wire w' = wire w ++ request /\
    firstn 4 request = big_endian32 op /\
    length request =
      (if (command_field op =? JBOD_WRITE_BLOCK)%Z then 261 else 5)%nat /\
    length hdr = 5%nat /\
    Z.testbit (nth 4 hdr 0) 0 = false /\
    if Z.testbit (nth 4 hdr 0) 1 then
      exists data,
        length data = 256%nat /\
        block' = data ++ skipn 256 block /\
        pending (inbox w) = hdr ++ data ++ pending (inbox w')
    else
      block' = block /\
      pending (inbox w) = hdr ++ pending (inbox w').
Proof.
  intros Hblk Hrun. unfold jbod_client_operation, bind in Hrun.
  destruct (send_packet host JBOD_WRITE_BLOCK fuel cli_sd op block send_buf
              past_t_op w) as [[oks w1] |] eqn:Hs; [| discriminate Hrun].
  destruct oks; cbn [negb] in Hrun; [| unfold pure in Hrun; discriminate Hrun].
  destruct (recv_packet host fuel cli_sd op ret block recv_buf w1)
    as [[[okr out] w2] |] eqn:Hr; [| discriminate Hrun].
  destruct okr; cbn [negb] in Hrun; unfold pure in Hrun; [| discriminate Hrun].
  injection Hrun as <- <-.
  destruct (recv_packet_any host fuel cli_sd op ret block recv_buf w1 _ w2 Hr)
    as (Hw2 & _).
  apply recv_packet_true_inv in Hr.
  destruct Hr as (hdr & Hl & _ & Hret & Hb0 & Hcase).
  rewrite Hret in Hb0, Hcase.
  assert (exists request,
            wire w1 = wire w ++ request /\
            firstn 4 request = big_endian32 op /\
            length request =
              (if (command_field op =? JBOD_WRITE_BLOCK)%Z then 261 else 5)%nat /\
            inbox w1 = inbox w) as (request & Hwire & Hfirst & Hlen & Hin1).
  { destruct (Z.eqb_spec (command_field op) JBOD_WRITE_BLOCK) as [Hc | Hc].
    - rewrite (send_packet_write_buffer host JBOD_WRITE_BLOCK fuel cli_sd op
                 block send_buf past_t_op Hc (Hblk Hc)) in Hs.
      unfold nwrite in Hs.
      apply nwrite_loop_true in Hs; [| unfold INT_MAX; lia | lia].
      destruct Hs as (Hwire & Hi & _).
      assert (length (big_endian32 op ++ 2 :: block) = 261%nat) as Hlen
        by (rewrite length_app; cbn [length big_endian32]; rewrite (Hblk Hc); lia).
      exists (big_endian32 op ++ 2 :: block). repeat split; try assumption.
      rewrite Hwire. f_equal.
      change (Z.to_nat 0) with 0%nat. cbn [skipn].
      change (Z.to_nat (261 - 0)) with 261%nat.
      rewrite <- Hlen. rewrite firstn_app, firstn_all, Nat.sub_diag.
      cbn [firstn]. apply app_nil_r.
    - rewrite (send_packet_other_buffer host JBOD_WRITE_BLOCK fuel cli_sd op
                 block send_buf past_t_op Hc) in Hs.
      unfold nwrite in Hs.
      apply nwrite_loop_true in Hs; [| unfold INT_MAX; lia | lia].
      destruct Hs as (Hwire & Hi & _).
      exists (big_endian32 op ++ [past_t_op]). repeat split; try assumption. }
  exists request, hdr. rewrite Hw2. rewrite Hin1 in Hcase.
  repeat split; assumption.
Qed.

(** * The further facts at sample inputs *)

(** X1 at a segment of seven bytes of which five are asked for. *)
Lemma nread_result_witness :
  exists data,
    length data = 5%nat /\
    [1; 2; 3; 4; 5; 0; 0; 0] = data ++ skipn (length data) (repeat 0 8%nat) /\
    pending (inbox (replying [[1; 2; 3; 4; 5; 6; 7]])) =
      data ++ pending [RdSeg [6; 7]] /\
    [] = outbox (replying [[1; 2; 3; 4; 5; 6; 7]]) /\
    [] = wire (replying [[1; 2; 3; 4; 5; 6; 7]]).
Proof.
  apply (nread_result 3 3 5 (repeat 0 8%nat) (replying [[1; 2; 3; 4; 5; 6; 7]])
           true [1; 2; 3; 4; 5; 0; 0; 0] (mkWorld [RdSeg [6; 7]] [] [] [5])).
  - unfold INT_MAX. lia.
  - reflexivity.
Defined.

(** X2 at three bytes asked for, one received before a failure. *)
Lemma nread_frame_witness :
  length [1; 9; 9; 9; 9] = length [9; 9; 9; 9; 9] /\
  skipn 3 [1; 9; 9; 9; 9] = skipn 3 [9; 9; 9; 9; 9] /\
  exists calls,
    [3; 2] = [] ++ calls /\ Forall (fun c => 0 < c <= 3) calls.
Proof.
  apply (nread_frame 3 3 3 [9; 9; 9; 9; 9] (mkWorld [RdSeg [1]; RdErr] [] [] [])
           false [1; 9; 9; 9; 9] (mkWorld [] [] [] [3; 2])).
  - unfold INT_MAX. lia.
  - cbn. lia.
  - reflexivity.
Defined.

(** X3 at five bytes offered, two accepted before a failure. *)
Lemma nwrite_result_witness :
  exists k : nat,
    (k < 5)%nat /\
    [9; 8] = [] ++ firstn k [9; 8; 7; 6; 5] /\
    inbox (mkWorld [] [] [9; 8] []) = [] /\
    rd_calls (mkWorld [] [] [9; 8] []) = [].
Proof.
  apply (nwrite_result 3 3 5 [9; 8; 7; 6; 5] (mkWorld [] [WrAcc 2; WrErr] [] [])
           false (mkWorld [] [] [9; 8] [])).
  - unfold INT_MAX. lia.
  - reflexivity.
Defined.

(** X4 at the length 0 and no fuel. *)
Lemma nread_nwrite_nothing_to_do_witness :
  nread 0 3 0 [1; 2] quiet = Some ((true, [1; 2]), quiet) /\
  nwrite 0 3 0 [1; 2] quiet = Some (true, quiet).
Proof.
  apply (nread_nwrite_nothing_to_do 0 3 0 [1; 2] quiet). lia.
Defined.

(** X5 at seven bytes in two segments of which five are asked for. *)
Lemma nread_enough_bytes_witness :
  exists w',
    nread 2 3 5 (repeat 0 6%nat) (replying [[1; 2; 3]; [4; 5; 6; 7]]) =
      Some ((true, [1; 2; 3; 4; 5] ++ [0]), w') /\
    pending (inbox w') = [6; 7] ++ pending [].
Proof.
  apply (nread_enough_bytes 2 3 5 (repeat 0 6%nat)
           (replying [[1; 2; 3]; [4; 5; 6; 7]]) [[1; 2; 3]; [4; 5; 6; 7]] []).
  - unfold INT_MAX. lia.
  - repeat constructor; discriminate.
  - reflexivity.
  - cbn. lia.
  - cbn. lia.
Defined.

(** X6 at three bytes that go out one at a time. *)
Lemma nwrite_succeeds_without_error_witness :
  exists w',
    nwrite 3 3 3 [7; 8; 9; 10] (mkWorld [] [WrAcc 1; WrAcc 1] [] []) =
      Some (true, w') /\
    wire w' = [] ++ [7; 8; 9].
Proof.
  apply (nwrite_succeeds_without_error 3 3 3 [7; 8; 9; 10]
           (mkWorld [] [WrAcc 1; WrAcc 1] [] [])).
  - unfold INT_MAX. lia.
  - repeat constructor; discriminate.
  - cbn. lia.
Defined.

(** X7 at a reply with status 2 and a block of 0xAA bytes. *)
Lemma recv_packet_success_framing_witness :
  exists hdr,
    length hdr = 5%nat /\
    5242880 = u32_of_mem LittleEndian (firstn 4 hdr) /\
    2 = nth 4 hdr 0 /\
    Z.testbit 2 0 = false /\
    exists data,
      length data = 256%nat /\
      repeat 170 256%nat = data ++ skipn 256 (repeat 0 256%nat) /\
      pending (inbox (replying [[0; 0; 80; 0; 2]; repeat 170 256%nat])) =
        hdr ++ data ++ pending [].
Proof.
  apply (recv_packet_success_framing LittleEndian 2 3 0 0 (repeat 0 256%nat)
           (repeat 0 5%nat) (replying [[0; 0; 80; 0; 2]; repeat 170 256%nat])
           (mkResponse 5242880 2 (repeat 170 256%nat))
           (mkWorld [] [] [] [5; 256])).
  reflexivity.
Defined.

(** X8 at a failure after two bytes of the header. *)
Lemma recv_packet_header_error_witness :
  exists w',
    recv_packet LittleEndian 2 3 7 8 [9] (repeat 0 5%nat)
      (mkWorld [RdSeg [0; 0]; RdErr; RdSeg [1]] [] [] []) =
      Some ((false, mkResponse 7 8 [9]), w') /\
    inbox w' = [RdSeg [1]] /\
    length (rd_calls w') = 2%nat.
Proof.
  apply (recv_packet_header_error LittleEndian 2 3 7 8 [9] (repeat 0 5%nat)
           (mkWorld [RdSeg [0; 0]; RdErr; RdSeg [1]] [] [] [])
           [[0; 0]] [RdSeg [1]]).
  - reflexivity.
  - cbn. lia.
  - cbn. lia.
Defined.

(** X9 at the same reply as X7. *)
Lemma recv_packet_never_writes_witness :
  wire (mkWorld [] [] [] [5; 256]) = [] /\
  outbox (mkWorld [] [] [] [5; 256]) = [] /\
  exists taken,
    (length taken <= 261)%nat /\
    pending (inbox (replying [[0; 0; 80; 0; 2]; repeat 170 256%nat])) =
      taken ++ pending [].
Proof.
  apply (recv_packet_never_writes LittleEndian 2 3 0 0 (repeat 0 256%nat)
           (repeat 0 5%nat) (replying [[0; 0; 80; 0; 2]; repeat 170 256%nat])
           (true, mkResponse 5242880 2 (repeat 170 256%nat))
           (mkWorld [] [] [] [5; 256])).
  reflexivity.
Defined.

(** X11 at a request of command 0. *)
Lemma send_packet_never_reads_witness :
  inbox (mkWorld [] [] [0; 0; 0; 0; 0] []) = inbox quiet /\
  rd_calls (mkWorld [] [] [0; 0; 0; 0; 0] []) = rd_calls quiet /\
  exists sent,
    [0; 0; 0; 0; 0] = wire quiet ++ sent /\ (length sent <= 5)%nat.
Proof.
  apply (send_packet_never_reads LittleEndian 5 1 3 0 [] (repeat 0 261%nat) 0
           quiet true (mkWorld [] [] [0; 0; 0; 0; 0] [])).
  reflexivity.
Defined.

(** X12 at a WRITE_BLOCK request cut by a failure after three bytes. *)
Lemma send_packet_write_block_failure_witness :
  exists k : nat,
    (k < 261)%nat /\
    [0; 0; 80] = [] ++ firstn k (big_endian32 20487 ++ 2 :: repeat 170 256%nat).
Proof.
  apply (send_packet_write_block_failure LittleEndian 5 2 3 20487
           (repeat 170 256%nat) (repeat 0 261%nat) 0
           (mkWorld [] [WrAcc 3; WrErr] [] []) (mkWorld [] [] [0; 0; 80] [])).
  - reflexivity.
  - reflexivity.
  - reflexivity.
Defined.

(** X13 at the header 00 00 50 00 00 on a little-endian host. *)
Lemma recv_packet_opcode_is_htonl_witness :
  r_op (mkResponse 5242880 0 (repeat 0 256%nat)) = htonl LittleEndian 20480.
Proof.
  apply (recv_packet_opcode_is_htonl LittleEndian 1 3 0 0 (repeat 0 256%nat)
           (repeat 0 5%nat) (replying [[0; 0; 80; 0; 0]]) [0; 0; 80; 0; 0]
           (mkWorld [] [] [] [5]) 20480 true
           (mkResponse 5242880 0 (repeat 0 256%nat)) (mkWorld [] [] [] [5])).
  - reflexivity.
  - reflexivity.
  - lia.
  - reflexivity.
Defined.

(** X14 at a connection that is made. *)
Lemma jbod_connect_success_witness :
  exists addr,
    Some 2130706433 = Some addr /\
    3 = 3 /\ 3 <> -1 /\ 0 <> -1.
Proof.
  apply (jbod_connect_success LittleEndian
           (mkOsNet (fun _ => Some 2130706433) 3 (fun _ _ _ => 0))
           "127.0.0.1"%string 8080 (-1) 3).
  reflexivity.
Defined.

(** X15 at a refused connection. *)
Lemma jbod_disconnect_after_connect_witness :
  jbod_disconnect (snd (jbod_connect LittleEndian refused "127.0.0.1"%string 8080 (-1))) =
    (3, -1).
Proof.
  apply (jbod_disconnect_after_connect LittleEndian refused "127.0.0.1"%string
           8080 (-1) 2130706433).
  reflexivity.
Defined.

(** X16 at a command 4 answered with status 2 and 256 bytes, the reply
    cut after its seventh byte. *)
Lemma jbod_client_operation_exchange_witness :
  exists w',
    jbod_client_operation LittleEndian 5 261 3 16384 (repeat 0 256%nat) 0
      (repeat 0 261%nat) 0 (repeat 0 5%nat)
      (replying [[0; 0; 64; 0; 2; 170; 170]; repeat 170 254%nat]) =
      Some ((0, repeat 170 256%nat ++
                skipn (length (repeat 170 256%nat)) (repeat 0 256%nat)), w') /\
    inbox w' = [].
Proof.
  apply (jbod_client_operation_exchange LittleEndian 5 261 3 16384
           (repeat 0 256%nat) 0 (repeat 0 261%nat) 0 (repeat 0 5%nat)
           (replying [[0; 0; 64; 0; 2; 170; 170]; repeat 170 254%nat])
           [[0; 0; 64; 0; 2; 170; 170]; repeat 170 254%nat] []
           [0; 0; 64; 0] 2 (repeat 170 256%nat)).
  - constructor.
  - cbn [replying inbox]. rewrite app_nil_r. reflexivity.
  - repeat constructor; discriminate.
  - reflexivity.
  - reflexivity.
  - reflexivity.
  - reflexivity.
  - lia.
  - cbn. lia.
Defined.

(** X17 at a reply with status 3 followed by two more bytes. *)
Lemma jbod_client_operation_peer_failure_witness :
  exists w',
    jbod_client_operation LittleEndian 5 261 3 16384 [9; 9] 0
      (repeat 0 261%nat) 0 (repeat 0 5%nat)
      (replying [[0; 0; 64; 0; 3; 9; 9]]) = Some ((-1, [9; 9]), w') /\
    pending (inbox w') = [9; 9] ++ pending [].
Proof.
  apply (jbod_client_operation_peer_failure LittleEndian 5 261 3 16384 [9; 9] 0
           (repeat 0 261%nat) 0 (repeat 0 5%nat)
           (replying [[0; 0; 64; 0; 3; 9; 9]])
           [[0; 0; 64; 0; 3; 9; 9]] [] [0; 0; 64; 0] 3 [9; 9]).
  - constructor.
  - reflexivity.
  - repeat constructor; discriminate.
  - reflexivity.
  - reflexivity.
  - reflexivity.
  - lia.
  - cbn. lia.
Defined.

(** X18 at a request of command 0 cut by a failure after two bytes. *)
Lemma jbod_client_operation_send_failure_witness :
  exists w',
    jbod_client_operation LittleEndian 5 2 3 0 [9; 9] 0
      (repeat 0 261%nat) 0 (repeat 0 5%nat)
      (mkWorld [RdSeg [0; 0; 0; 0; 0]] [WrAcc 2; WrErr] [] []) =
      Some ((-1, [9; 9]), w') /\
    inbox w' = [RdSeg [0; 0; 0; 0; 0]] /\ rd_calls w' = [].
Proof.
  apply (jbod_client_operation_send_failure LittleEndian 5 2 3 0 [9; 9] 0
           (repeat 0 261%nat) 0 (repeat 0 5%nat)
           (mkWorld [RdSeg [0; 0; 0; 0; 0]] [WrAcc 2; WrErr] [] [])
           [2%positive] []).
  - reflexivity.
  - cbn. lia.
  - cbn. lia.
Defined.

(** X19 at a request of command 0 answered with status 0. *)
Lemma jbod_client_operation_success_witness :
  exists request hdr,
    [0; 0; 0; 0; 0] = [] ++ request /\
    firstn 4 request = big_endian32 0 /\
    length request = 5%nat /\
    length hdr = 5%nat /\
    Z.testbit (nth 4 hdr 0) 0 = false /\
    if Z.testbit (nth 4 hdr 0) 1 then
      exists data,
        length data = 256%nat /\
        repeat 9 256%nat = data ++ skipn 256 (repeat 9 256%nat) /\
        pending (inbox (replying [[0; 0; 0; 0; 0]])) = hdr ++ data ++ pending []
    else
      repeat 9 256%nat = repeat 9 256%nat /\
      pending (inbox (replying [[0; 0; 0; 0; 0]])) = hdr ++ pending [].
Proof.
  apply (jbod_client_operation_success LittleEndian 5 2 3 0 (repeat 9 256%nat) 0
           (repeat 0 261%nat) 0 (repeat 0 5%nat) (replying [[0; 0; 0; 0; 0]])
           (repeat 9 256%nat) (mkWorld [] [] [0; 0; 0; 0; 0] [5])).
  - intros _. reflexivity.
  - reflexivity.
Defined.
